(** * CrimeScope-Web: the browser-side API client (js/api_client.js)

    A shallow embedding of [ApiClient] and of the parts of the JavaScript
    runtime it calls: [encodeURIComponent], template-literal number
    conversion, [fetch], [Response.ok], [Response.json] and
    [console.error]. The specification calls the three operations
    fetchStats, fetchTrend and fetchPrediction; the source names them
    getStats, getTrend and getPrediction, and so does this file.

    - Arguments have the types the specification gives them: the
      jurisdiction is a string, the years are integers, and an omitted
      argument is [None].
    - A JavaScript string is a sequence of UTF-16 code units ([JsString]).
      URLs, which the client builds from ASCII literals and from the
      output of [encodeURIComponent], are kept as [string].
    - An [async] function is modelled by the completion of the promise it
      returns: [Normal v] for a promise fulfilled with [v], [Throw e] for
      a promise rejected with [e]. [await p] continues with the value of
      [p] or throws its rejection reason; since the client has no shared
      mutable state, interleaving with other tasks is not observable.
    - Effects (outbound requests, body reads, console output) are recorded
      in order in a trace carried by the monad [M].
    - The network and the backend are a parameter: a function from the
      URL of a GET request to what comes back. *)

From Stdlib Require Import ZArith NArith String Ascii List Bool Lia DecimalString.
From Stdlib Require Import DecimalPos DecimalZ.
Import ListNotations.

Local Open Scope string_scope.
Local Open Scope N_scope.

(* ===================================================================== *)
(** ** JavaScript strings *)

(** A UTF-16 code unit is a number below [0x10000]. *)
Definition JsString := list N.

Definition code_unit (c : N) : bool := c <? 0x10000.

Definition js_wf (s : JsString) : bool := forallb code_unit s.

(** The JavaScript string denoted by an ASCII literal. *)
Definition js (s : string) : JsString := map N_of_ascii (list_ascii_of_string s).

(* ===================================================================== *)
(** ** Exceptions and completions *)

Inductive JsError : Type :=
| URIError                       (* encodeURIComponent on an unpaired surrogate *)
| TypeError                      (* fetch: network failure; json(): body stream failure *)
| SyntaxError                    (* json(): the body is not a JSON text *)
| Error (message : string).      (* new Error(message) *)

Inductive Completion (A : Type) : Type :=
| Normal (a : A)
| Throw (e : JsError).

Arguments Normal {A} a.
Arguments Throw {A} e.

Definition cmap {A B} (f : A -> B) (c : Completion A) : Completion B :=
  match c with
  | Normal a => Normal (f a)
  | Throw e => Throw e
  end.

(* ===================================================================== *)
(** ** encodeURIComponent (ECMA-262, Encode with the uriUnescaped set) *)

Definition in_range (lo hi c : N) : bool := (lo <=? c) && (c <=? hi).

(** uriMark: - _ . ! ~ * ' ( ) *)
Definition uriMark (c : N) : bool :=
  existsb (N.eqb c) [45; 95; 46; 33; 126; 42; 39; 40; 41].

(** uriUnescaped: letters, decimal digits and uriMark. *)
Definition uriUnescaped (c : N) : bool :=
  in_range 65 90 c || in_range 97 122 c || in_range 48 57 c || uriMark c.

Definition is_leading_surrogate (c : N) : bool := in_range 0xD800 0xDBFF c.
Definition is_trailing_surrogate (c : N) : bool := in_range 0xDC00 0xDFFF c.

(** UTF16SurrogatePairToCodePoint *)
Definition surrogate_pair (lead trail : N) : N :=
  (lead - 0xD800) * 0x400 + (trail - 0xDC00) + 0x10000.

(** The UTF-8 octets of a code point. *)
Definition utf8 (cp : N) : list N :=
  if cp <? 0x80 then [cp]
  else if cp <? 0x800 then [0xC0 + cp / 0x40; 0x80 + cp mod 0x40]
  else if cp <? 0x10000 then
    [0xE0 + cp / 0x1000; 0x80 + (cp / 0x40) mod 0x40; 0x80 + cp mod 0x40]
  else
    [0xF0 + cp / 0x40000; 0x80 + (cp / 0x1000) mod 0x40;
     0x80 + (cp / 0x40) mod 0x40; 0x80 + cp mod 0x40].

Definition hexdigit (d : N) : ascii :=
  if d <? 10 then ascii_of_N (48 + d) else ascii_of_N (55 + d).

(** One octet as "%XX", upper-case hexadecimal. *)
Definition percent (octet : N) : string :=
  String "%" (String (hexdigit (octet / 16)) (String (hexdigit (octet mod 16)) "")).

Definition escape (cp : N) : string := String.concat "" (map percent (utf8 cp)).

Fixpoint encodeURIComponent (s : JsString) : Completion string :=
  match s with
  | [] => Normal ""
  | c :: rest =>
      if uriUnescaped c then cmap (String (ascii_of_N c)) (encodeURIComponent rest)
      else if is_trailing_surrogate c then Throw URIError
      else if is_leading_surrogate c then
        match rest with
        | [] => Throw URIError
        | d :: rest' =>
            if is_trailing_surrogate d
            then cmap (append (escape (surrogate_pair c d))) (encodeURIComponent rest')
            else Throw URIError
        end
      else cmap (append (escape c)) (encodeURIComponent rest)
  end.

(* ===================================================================== *)
(** ** Numbers in template literals

    The year arguments are integers; for an integer [n] with
    [|n| < 10^21], [`${n}`] is its decimal numeral, with a leading
    minus sign when negative. *)

Definition Number_toString (n : Z) : string := NilZero.string_of_int (Z.to_int n).

(* ===================================================================== *)
(** ** JSON values and JSON.parse

    [Json] is the value denoted by a JSON text: object members are kept
    in the order of the text, and a number is kept as the exact decimal
    [mantissa * 10 ^ exponent] that the text denotes (the runtime rounds
    it to the nearest double, and keeps the sign of a negative zero).
    JavaScript's [null] is [JNull]. The grammar is that of ECMA-404, as
    JSON.parse reads it; no limit is put on the depth of nesting. *)

#[local] Set Warnings "-register-all".

Inductive Json : Type :=
| JNull
| JBool (b : bool)
| JNum (mantissa exponent : Z)
| JStr (s : JsString)
| JArr (elements : list Json)
| JObj (members : list (JsString * Json)).

Module JSON.

Notation "x <- c ;; k" := (match c with Some x => k | None => None end)
  (at level 61, c at next level, right associativity, only parsing).
Notation "' p <- c ;; k" := (match c with Some p => k | None => None end)
  (at level 61, p pattern, c at next level, right associativity, only parsing).

(** JSON whitespace: space, tab, line feed, carriage return. *)
Definition is_ws (c : N) : bool := existsb (N.eqb c) [32; 9; 10; 13].

Fixpoint skip_ws (s : JsString) : JsString :=
  match s with
  | c :: r => if is_ws c then skip_ws r else s
  | [] => []
  end.

Definition is_digit (c : N) : bool := in_range 48 57 c.

Definition hexval (c : N) : option N :=
  if in_range 48 57 c then Some (c - 48)
  else if in_range 65 70 c then Some (c - 55)
  else if in_range 97 102 c then Some (c - 87)
  else None.

(** The character denoted by a one-letter escape: quote, backslash,
    slash, b, f, n, r, t. *)
Definition simple_escape (c : N) : option N :=
  if c =? 34 then Some 34
  else if c =? 92 then Some 92
  else if c =? 47 then Some 47
  else if c =? 98 then Some 8
  else if c =? 102 then Some 12
  else if c =? 110 then Some 10
  else if c =? 114 then Some 13
  else if c =? 116 then Some 9
  else None.

Definition cons_char (c : N) (p : option (JsString * JsString)) :=
  ' (cs, r) <- p ;; Some (c :: cs, r).

(** The characters of a string, read after its opening quote, and the
    text after its closing quote. *)
Fixpoint parse_chars (s : JsString) : option (JsString * JsString) :=
  match s with
  | [] => None
  | c :: r =>
      if c =? 34 then Some ([], r)
      else if c =? 92 then
        match r with
        | [] => None
        | e :: r1 =>
            if e =? 117 then
              match r1 with
              | h1 :: h2 :: h3 :: h4 :: r2 =>
                  a <- hexval h1 ;; b <- hexval h2 ;;
                  c' <- hexval h3 ;; d <- hexval h4 ;;
                  cons_char (((a * 16 + b) * 16 + c') * 16 + d) (parse_chars r2)
              | _ => None
              end
            else x <- simple_escape e ;; cons_char x (parse_chars r1)
        end
      else if c <? 32 then None
      else cons_char c (parse_chars r)
  end.

Fixpoint take_digits (s : JsString) : list N * JsString :=
  match s with
  | c :: r =>
      if is_digit c then let (ds, r') := take_digits r in (c :: ds, r') else ([], s)
  | [] => ([], [])
  end.

Definition digits_val (ds : list N) : Z :=
  fold_left (fun acc d => (10 * acc + Z.of_N (d - 48))%Z) ds 0%Z.

Definition nonempty_digits (s : JsString) : option (list N * JsString) :=
  match take_digits s with
  | ([], _) => None
  | p => Some p
  end.

Definition parse_frac (s : JsString) : option (list N * JsString) :=
  match s with
  | c :: r => if c =? 46 then nonempty_digits r else Some ([], s)
  | [] => Some ([], [])
  end.

Definition parse_exp (s : JsString) : option (Z * JsString) :=
  match s with
  | c :: r =>
      if (c =? 101) || (c =? 69) then
        match r with
        | sg :: r' =>
            if sg =? 45 then ' (es, r2) <- nonempty_digits r' ;; Some ((- digits_val es)%Z, r2)
            else if sg =? 43 then ' (es, r2) <- nonempty_digits r' ;; Some (digits_val es, r2)
            else ' (es, r2) <- nonempty_digits r ;; Some (digits_val es, r2)
        | [] => None
        end
      else Some (0%Z, s)
  | [] => Some (0%Z, [])
  end.

(** number = [-] int [frac] [exp], int = 0 | digit1-9 digits *)
Definition parse_number (s : JsString) : option (Json * JsString) :=
  let '(neg, s0) :=
    match s with
    | c :: r => if c =? 45 then (true, r) else (false, s)
    | [] => (false, s)
    end in
  match s0 with
  | [] => None
  | c :: r =>
      if is_digit c then
        let '(ds, r1) := if c =? 48 then ([], r) else take_digits r in
        ' (fs, r2) <- parse_frac r1 ;;
        ' (e, r3) <- parse_exp r2 ;;
        let m := digits_val (c :: ds ++ fs) in
        Some (JNum (if neg then - m else m)%Z (e - Z.of_nat (length fs))%Z, r3)
      else None
  end.

Fixpoint strip_prefix (p s : JsString) : option JsString :=
  match p, s with
  | [], _ => Some s
  | a :: p', b :: s' => if a =? b then strip_prefix p' s' else None
  | _ :: _, [] => None
  end.

(** A member's name and the colon after it. *)
Definition parse_key (s : JsString) : option (JsString * JsString) :=
  match skip_ws s with
  | c :: r =>
      if c =? 34 then
        ' (k, r1) <- parse_chars r ;;
        match skip_ws r1 with
        | d :: r2 => if d =? 58 then Some (k, r2) else None
        | [] => None
        end
      else None
  | [] => None
  end.

(** Recursive descent; every recursive call is on a strictly shorter
    text, so [fuel] above the length of the text is never exhausted
    (see [parse_value_fuel]). *)
Fixpoint parse_value (fuel : nat) (s : JsString) : option (Json * JsString) :=
  match fuel with
  | O => None
  | S fuel' =>
      match skip_ws s with
      | [] => None
      | c :: r =>
          if c =? 123 then
            match skip_ws r with
            | d :: r' =>
                if d =? 125 then Some (JObj [], r')
                else
                  ' (k, r1) <- parse_key r ;;
                  ' (v, r2) <- parse_value fuel' r1 ;;
                  ' (ms, r3) <- parse_members fuel' r2 ;;
                  Some (JObj ((k, v) :: ms), r3)
            | [] => None
            end
          else if c =? 91 then
            match skip_ws r with
            | d :: r' =>
                if d =? 93 then Some (JArr [], r')
                else
                  ' (v, r1) <- parse_value fuel' r ;;
                  ' (vs, r2) <- parse_elements fuel' r1 ;;
                  Some (JArr (v :: vs), r2)
            | [] => None
            end
          else if c =? 34 then
            ' (cs, r1) <- parse_chars r ;; Some (JStr cs, r1)
          else if c =? 116 then
            r1 <- strip_prefix (js "rue") r ;; Some (JBool true, r1)
          else if c =? 102 then
            r1 <- strip_prefix (js "alse") r ;; Some (JBool false, r1)
          else if c =? 110 then
            r1 <- strip_prefix (js "ull") r ;; Some (JNull, r1)
          else parse_number (c :: r)
      end
  end

(** The elements after the first, up to the closing bracket. *)
with parse_elements (fuel : nat) (s : JsString) : option (list Json * JsString) :=
  match fuel with
  | O => None
  | S fuel' =>
      match skip_ws s with
      | c :: r =>
          if c =? 93 then Some ([], r)
          else if c =? 44 then
            ' (v, r1) <- parse_value fuel' r ;;
            ' (vs, r2) <- parse_elements fuel' r1 ;;
            Some (v :: vs, r2)
          else None
      | [] => None
      end
  end

(** The members after the first, up to the closing brace. *)
with parse_members (fuel : nat) (s : JsString)
  : option (list (JsString * Json) * JsString) :=
  match fuel with
  | O => None
  | S fuel' =>
      match skip_ws s with
      | c :: r =>
          if c =? 125 then Some ([], r)
          else if c =? 44 then
            ' (k, r1) <- parse_key r ;;
            ' (v, r2) <- parse_value fuel' r1 ;;
            ' (ms, r3) <- parse_members fuel' r2 ;;
            Some ((k, v) :: ms, r3)
          else None
      | [] => None
      end
  end.

(** JSON.parse(text): one value between optional whitespace; [None]
    stands for the SyntaxError. *)
Definition parse (text : JsString) : option Json :=
  ' (v, r) <- parse_value (S (length text)) text ;;
  match skip_ws r with
  | [] => Some v
  | _ :: _ => None
  end.

End JSON.

(* ===================================================================== *)
(** ** Effects: a trace of observable events, and exceptions *)

Inductive Event : Type :=
| Request (method url : string)   (* fetch: one outbound HTTP request *)
| ReadBody                        (* response.json(): the body is consumed and decoded *)
| ConsoleError (e : JsError).     (* console.error(e) *)

(** A computation completes normally or throws, and leaves the events it
    performed, oldest first. *)
Definition M (A : Type) : Type := (Completion A * list Event)%type.

Definition ret {A} (a : A) : M A := (Normal a, []).

Definition throw {A} (e : JsError) : M A := (Throw e, []).

Definition bind {A B} (m : M A) (k : A -> M B) : M B :=
  match m with
  | (Normal a, t) => let (c, t') := k a in (c, (t ++ t')%list)
  | (Throw e, t) => (Throw e, t)
  end.

(** try { body } catch (error) { handler error } *)
Definition try_catch {A} (body : M A) (handler : JsError -> M A) : M A :=
  match body with
  | (Normal a, t) => (Normal a, t)
  | (Throw e, t) => let (c, t') := handler e in (c, (t ++ t')%list)
  end.

Definition emit (ev : Event) : M unit := (Normal tt, [ev]).

Definition lift {A} (c : Completion A) : M A := (c, []).

Definition result {A} (m : M A) : Completion A := fst m.
Definition trace {A} (m : M A) : list Event := snd m.

Declare Scope js_scope.
Delimit Scope js_scope with js.
Notation "x <- m ;; k" := (bind m (fun x => k))
  (at level 61, m at next level, right associativity) : js_scope.
Notation "m ;; k" := (bind m (fun _ => k))
  (at level 61, right associativity) : js_scope.

(* ===================================================================== *)
(** ** fetch, Response and console *)

(** The body of a response as the text its octets decode to (UTF-8, a
    leading byte order mark removed), or a stream that fails before the
    body is complete. *)
Inductive Body : Type :=
| Text (text : JsString)
| Aborted.

Record Response : Type := { status : Z; body : Body }.

(** What the network and the backend do with a GET request for a URL: no
    response at all (connection refused, DNS failure, transport timeout),
    or a response. *)
Inductive FetchOutcome : Type :=
| NetworkError
| Responds (r : Response).

Definition Network := string -> FetchOutcome.

(** fetch(url): a GET request; the promise rejects with a TypeError only
    when the transport fails, whatever the status of a response. *)
Definition fetch (net : Network) (url : string) : M Response :=
  (emit (Request "GET" url) ;;
   match net url with
   | NetworkError => throw TypeError
   | Responds r => ret r
   end)%js.

(** response.ok *)
Definition ok (r : Response) : bool := ((200 <=? status r) && (status r <=? 299))%Z.

(** response.json() *)
Definition json (r : Response) : M Json :=
  (emit ReadBody ;;
   match body r with
   | Aborted => throw TypeError
   | Text text =>
       match JSON.parse text with
       | Some v => ret v
       | None => throw SyntaxError
       end
   end)%js.

Definition console_error (e : JsError) : M unit := emit (ConsoleError e).

(* ===================================================================== *)
(** ** The script: its two constants and the ApiClient object *)

(** The script binds two constants before it builds the object. The
    operations read them from this record, so that what each constant can
    influence is a statement about the operations. *)
Record Constants : Type := { API_BASE_URL : string; API_URL : string }.

Definition constants : Constants :=
  {| API_BASE_URL := "http://127.0.0.com/api";
     API_URL := "http://127.0.0.1:5000/api" |}.

(** A parameter with a default: the default applies when the argument is
    omitted. *)
Definition default {A} (d : A) (arg : option A) : A :=
  match arg with
  | Some a => a
  | None => d
  end.

Module ApiClient.
Section Methods.

Variable c : Constants.
Variable net : Network.

Definition getStats (state : option JsString) (minYear maxYear : option Z) : M Json :=
  let state := default (js "all") state in
  let minYear := default 2017%Z minYear in
  let maxYear := default 2023%Z maxYear in
  try_catch
    (s <- lift (encodeURIComponent state) ;;
     response <- fetch net (API_URL c ++ "/stats?state=" ++ s
                            ++ "&min_year=" ++ Number_toString minYear
                            ++ "&max_year=" ++ Number_toString maxYear) ;;
     (if negb (ok response) then throw (Error "API Error fetching stats") else ret tt) ;;
     json response)%js
    (fun error => console_error error ;; ret JNull)%js.

Definition getTrend (state : option JsString) : M Json :=
  let state := default (js "all") state in
  try_catch
    (s <- lift (encodeURIComponent state) ;;
     response <- fetch net (API_URL c ++ "/chart/trend?state=" ++ s) ;;
     (if negb (ok response) then throw (Error "API Error fetching trend data") else ret tt) ;;
     json response)%js
    (fun error => console_error error ;; ret JNull)%js.

Definition getPrediction (state : option JsString) (targetYear : option Z) : M Json :=
  let state := default (js "all") state in
  let targetYear := default 2024%Z targetYear in
  try_catch
    (s <- lift (encodeURIComponent state) ;;
     response <- fetch net (API_URL c ++ "/predict?state=" ++ s
                            ++ "&target_year=" ++ Number_toString targetYear) ;;
     (if negb (ok response) then throw (Error "API Error fetching prediction") else ret tt) ;;
     json response)%js
    (fun error => console_error error ;; ret JNull)%js.

End Methods.
End ApiClient.

(** An invocation of one of the three operations with its arguments
    ([None] for an omitted argument). *)
Inductive Call : Type :=
| CallStats (state : option JsString) (minYear maxYear : option Z)
| CallTrend (state : option JsString)
| CallPrediction (state : option JsString) (targetYear : option Z).

Definition invoke (c : Constants) (net : Network) (call : Call) : M Json :=
  match call with
  | CallStats state minYear maxYear => ApiClient.getStats c net state minYear maxYear
  | CallTrend state => ApiClient.getTrend c net state
  | CallPrediction state targetYear => ApiClient.getPrediction c net state targetYear
  end.

(* ===================================================================== *)
(** ** Vocabulary of the statements *)

(** String.prototype.isWellFormed: no unpaired surrogate. *)
Fixpoint isWellFormed (s : JsString) : bool :=
  match s with
  | [] => true
  | c :: rest =>
      if is_trailing_surrogate c then false
      else if is_leading_surrogate c then
        match rest with
        | [] => false
        | d :: rest' => is_trailing_surrogate d && isWellFormed rest'
        end
      else isWellFormed rest
  end.

(** The jurisdiction an invocation asks for, defaults applied. *)
Definition jurisdiction (call : Call) : JsString :=
  match call with
  | CallStats state _ _ | CallTrend state | CallPrediction state _ =>
      default (js "all") state
  end.

(** Endpoint path and query string of an invocation, given its encoded
    jurisdiction. *)
Definition endpoint (call : Call) (enc : string) : string :=
  match call with
  | CallStats _ minYear maxYear =>
      "/stats?state=" ++ enc
      ++ "&min_year=" ++ Number_toString (default 2017%Z minYear)
      ++ "&max_year=" ++ Number_toString (default 2023%Z maxYear)
  | CallTrend _ => "/chart/trend?state=" ++ enc
  | CallPrediction _ targetYear =>
      "/predict?state=" ++ enc
      ++ "&target_year=" ++ Number_toString (default 2024%Z targetYear)
  end.

(** The message of the Error thrown on a non-success status. *)
Definition message_of (call : Call) : string :=
  match call with
  | CallStats _ _ _ => "API Error fetching stats"
  | CallTrend _ => "API Error fetching trend data"
  | CallPrediction _ _ => "API Error fetching prediction"
  end.

(** The URLs of the requests in a trace, and the errors logged in it. *)
Fixpoint requests (t : list Event) : list (string * string) :=
  match t with
  | [] => []
  | Request m u :: t' => (m, u) :: requests t'
  | _ :: t' => requests t'
  end.

Fixpoint diagnostics (t : list Event) : list JsError :=
  match t with
  | [] => []
  | ConsoleError e :: t' => e :: diagnostics t'
  | _ :: t' => diagnostics t'
  end.

(** A backend that answers every request with the same status and body. *)
Definition stub (st : Z) (text : JsString) : Network :=
  fun _ => Responds {| status := st; body := Text text |}.

(** A network on which no request gets through. *)
Definition unreachable : Network := fun _ => NetworkError.

(** A JSON string token: the text between two quotation marks. *)
Definition quoted (s : string) : JsString := (34 :: js s ++ [34])%list.

(** The bodies of the two scenarios: an object with the member total, and
    an object with the members year and predicted. *)
Definition total_123 : JsString :=
  (js "{" ++ quoted "total" ++ js ":123}")%list.

Definition prediction_2025 : JsString :=
  (js "{" ++ quoted "year" ++ js ":2025," ++ quoted "predicted" ++ js ":4200}")%list.

(** Characters that [encodeURIComponent] can produce: the unreserved
    ones, the percent sign and upper-case hexadecimal digits. *)
Definition encoded_char (a : ascii) : bool :=
  let n := N_of_ascii a in
  uriUnescaped n || (n =? 37) || in_range 48 57 n || in_range 65 70 n.

Fixpoint all_chars (p : ascii -> bool) (s : string) : bool :=
  match s with
  | EmptyString => true
  | String a s' => p a && all_chars p s'
  end.

(** The code points of a string: a surrogate pair stands for one code
    point. *)
Fixpoint code_points (s : JsString) : list N :=
  match s with
  | [] => []
  | c :: rest =>
      if is_leading_surrogate c then
        match rest with
        | d :: rest' =>
            if is_trailing_surrogate d
            then surrogate_pair c d :: code_points rest'
            else c :: code_points rest
        | [] => [c]
        end
      else c :: code_points rest
  end.

(** Percent-decoding (RFC 3986): a percent sign and two hexadecimal
    digits stand for one octet, any other character for its own code. *)
Fixpoint percent_decode (s : string) : option (list N) :=
  match s with
  | EmptyString => Some []
  | String a s' =>
      if N_of_ascii a =? 37 then
        match s' with
        | String x (String y s'') =>
            match JSON.hexval (N_of_ascii x), JSON.hexval (N_of_ascii y),
                  percent_decode s'' with
            | Some h, Some l, Some octets => Some (h * 16 + l :: octets)
            | _, _, _ => None
            end
        | _ => None
        end
      else option_map (cons (N_of_ascii a)) (percent_decode s')
  end.

(** The UTF-16 code units of a code point. *)
Definition utf16 (cp : N) : list N :=
  if cp <? 0x10000 then [cp]
  else [0xD800 + (cp - 0x10000) / 0x400; 0xDC00 + (cp - 0x10000) mod 0x400].

Fixpoint split_on (sep : ascii) (s : string) : list string :=
  match s with
  | EmptyString => [EmptyString]
  | String a s' =>
      if Ascii.eqb a sep then EmptyString :: split_on sep s'
      else match split_on sep s' with
           | h :: t => String a h :: t
           | [] => [String a EmptyString]
           end
  end.



(** A decimal numeral read as an integer. *)
Definition parse_year (s : string) : option Z :=
  option_map Z.of_int (NilZero.int_of_string s).

(** The separator does not occur in the string. *)
Definition absent (sep : ascii) (s : string) : bool :=
  all_chars (fun a => negb (Ascii.eqb a sep)) s.

(** The characters of a decimal numeral: digits and the minus sign. *)
Definition year_char (a : ascii) : bool :=
  in_range 48 57 (N_of_ascii a) || Ascii.eqb a "-".

(** An invocation with its defaults filled in. *)
Definition normalize (call : Call) : Call :=
  match call with
  | CallStats state minYear maxYear =>
      CallStats (Some (default (js "all") state))
        (Some (default 2017%Z minYear)) (Some (default 2023%Z maxYear))
  | CallTrend state => CallTrend (Some (default (js "all") state))
  | CallPrediction state targetYear =>
      CallPrediction (Some (default (js "all") state))
        (Some (default 2024%Z targetYear))
  end.

(** Awaiting the operations of a list one after another, and collecting
    their values. *)
Fixpoint invoke_all (c : Constants) (net : Network) (calls : list Call) : M (list Json) :=
  match calls with
  | [] => ret []
  | call :: rest =>
      (v <- invoke c net call ;;
       vs <- invoke_all c net rest ;;
       ret (v :: vs))%js
  end.

(** What one invocation does, by cases on the URL construction and on
    the network: the value returned and the events, in order. *)
Definition outcome (net : Network) (url : Completion string) (message : string) : M Json :=
  match url with
  | Throw e => (Normal JNull, [ConsoleError e])
  | Normal u =>
      match net u with
      | NetworkError => (Normal JNull, [Request "GET" u; ConsoleError TypeError])
      | Responds r =>
          if ok r then
            match body r with
            | Aborted => (Normal JNull, [Request "GET" u; ReadBody; ConsoleError TypeError])
            | Text text =>
                match JSON.parse text with
                | Some v => (Normal v, [Request "GET" u; ReadBody])
                | None => (Normal JNull, [Request "GET" u; ReadBody; ConsoleError SyntaxError])
                end
            end
          else (Normal JNull, [Request "GET" u; ConsoleError (Error message)])
      end
  end.

Definition url_of (c : Constants) (call : Call) : Completion string :=
  cmap (fun enc => API_URL c ++ endpoint call enc) (encodeURIComponent (jurisdiction call)).

(* ===================================================================== *)
(** * Properties *)

(** ** The three operations, by cases *)

Lemma invoke_outcome (c : Constants) (net : Network) (call : Call) :
  invoke c net call = outcome net (url_of c call) (message_of call).
Proof.
  destruct call; cbn [invoke jurisdiction url_of endpoint message_of];
    unfold ApiClient.getStats, ApiClient.getTrend, ApiClient.getPrediction, url_of;
    cbn [jurisdiction endpoint];
    destruct (encodeURIComponent _) as [enc|e]; try reflexivity;
    cbn [cmap outcome lift bind try_catch fetch emit app];
    (match goal with |- context [net ?u] => destruct (net u) as [|r] end);
    try reflexivity;
    cbn [cmap outcome lift bind try_catch fetch emit app ret throw json console_error];
    destruct (ok r); try reflexivity;
    cbn [negb cmap outcome lift bind try_catch fetch emit app ret throw json console_error];
    destruct (body r) as [text|]; try reflexivity;
    destruct (JSON.parse text); reflexivity.
Qed.

(** ** encodeURIComponent *)

Ltac bool_to_prop :=
  repeat match goal with
    | H : _ && _ = true |- _ => apply andb_true_iff in H; destruct H
    | H : _ || _ = true |- _ => apply orb_true_iff in H; destruct H
    | H : _ && _ = false |- _ => apply andb_false_iff in H; destruct H
    | H : _ || _ = false |- _ => apply orb_false_iff in H; destruct H
    | H : (_ <=? _) = true |- _ => apply N.leb_le in H
    | H : (_ <=? _) = false |- _ => apply N.leb_gt in H
    | H : (_ <? _) = true |- _ => apply N.ltb_lt in H
    | H : (_ <? _) = false |- _ => apply N.ltb_ge in H
    | H : (_ =? _) = true |- _ => apply N.eqb_eq in H
    | H : (_ =? _) = false |- _ => apply N.eqb_neq in H
    | H : false = true |- _ => discriminate H
    end.

Lemma uriUnescaped_ascii (c : N) : uriUnescaped c = true -> c <= 126.
Proof.
  unfold uriUnescaped, in_range, uriMark, existsb. intros H.
  bool_to_prop; lia.
Qed.

Lemma uriUnescaped_not_surrogate (c : N) :
  uriUnescaped c = true ->
  is_trailing_surrogate c = false /\ is_leading_surrogate c = false.
Proof.
  intros H. apply uriUnescaped_ascii in H.
  unfold is_trailing_surrogate, is_leading_surrogate, in_range.
  split; apply andb_false_iff; left; apply N.leb_gt; lia.
Qed.

(** [encodeURIComponent] throws exactly on the strings with an unpaired
    surrogate, and then it throws a URIError. *)
Lemma encodeURIComponent_isWellFormed (s : JsString) :
  if isWellFormed s
  then exists enc, encodeURIComponent s = Normal enc
  else encodeURIComponent s = Throw URIError.
Proof.
  remember (length s) as n eqn:Hn. revert s Hn.
  induction n as [n IH] using lt_wf_ind. intros s Hn.
  destruct s as [|c rest]; [cbn; eauto|].
  cbn [isWellFormed encodeURIComponent].
  destruct (uriUnescaped c) eqn:Hu.
  - destruct (uriUnescaped_not_surrogate c Hu) as [-> ->].
    specialize (IH (length rest) ltac:(subst n; cbn; lia) rest eq_refl).
    destruct (isWellFormed rest).
    + destruct IH as [enc ->]. cbn. eauto.
    + rewrite IH. reflexivity.
  - destruct (is_trailing_surrogate c); [reflexivity|].
    destruct (is_leading_surrogate c).
    + destruct rest as [|d rest']; [reflexivity|].
      destruct (is_trailing_surrogate d); [|reflexivity].
      specialize (IH (length rest') ltac:(subst n; cbn; lia) rest' eq_refl).
      cbn [andb]. destruct (isWellFormed rest').
      * destruct IH as [enc ->]. cbn. eauto.
      * rewrite IH. reflexivity.
    + specialize (IH (length rest) ltac:(subst n; cbn; lia) rest eq_refl).
      destruct (isWellFormed rest).
      * destruct IH as [enc ->]. cbn. eauto.
      * rewrite IH. reflexivity.
Qed.

Lemma encodeURIComponent_only_URIError (s : JsString) (e : JsError) :
  encodeURIComponent s = Throw e -> e = URIError /\ isWellFormed s = false.
Proof.
  intros H. pose proof (encodeURIComponent_isWellFormed s) as W.
  destruct (isWellFormed s).
  - destruct W as [enc W]. congruence.
  - split; congruence.
Qed.

Lemma all_chars_app (p : ascii -> bool) (a b : string) :
  all_chars p (a ++ b) = all_chars p a && all_chars p b.
Proof.
  induction a as [|x a IH]; cbn; [reflexivity|].
  rewrite IH. apply andb_assoc.
Qed.

Lemma hexdigit_encoded (d : N) : d < 16 -> encoded_char (hexdigit d) = true.
Proof.
  intros H.
  assert (d = 0 \/ d = 1 \/ d = 2 \/ d = 3 \/ d = 4 \/ d = 5 \/ d = 6 \/ d = 7 \/
          d = 8 \/ d = 9 \/ d = 10 \/ d = 11 \/ d = 12 \/ d = 13 \/ d = 14 \/ d = 15)
    as C by lia.
  repeat (destruct C as [->|C]; [reflexivity|]). subst d. reflexivity.
Qed.

Lemma percent_encoded (octet : N) :
  octet < 256 -> all_chars encoded_char (percent octet) = true.
Proof.
  intros H. unfold percent. cbn [all_chars].
  rewrite !hexdigit_encoded; [reflexivity| |].
  - apply N.mod_lt. lia.
  - apply N.Div0.div_lt_upper_bound. lia.
Qed.

Lemma utf8_octets (cp : N) :
  cp < 0x110000 -> Forall (fun b => b < 256) (utf8 cp).
Proof.
  intros H. unfold utf8.
  assert (forall x, x mod 0x40 < 0x40) as Hm by (intros; apply N.mod_lt; lia).
  destruct (cp <? 0x80) eqn:H1; bool_to_prop.
  { repeat constructor. lia. }
  destruct (cp <? 0x800) eqn:H2; bool_to_prop.
  { assert (cp / 0x40 < 0x20) by (apply N.Div0.div_lt_upper_bound; lia).
    pose proof (Hm cp). repeat constructor; lia. }
  destruct (cp <? 0x10000) eqn:H3; bool_to_prop.
  { assert (cp / 0x1000 < 0x10) by (apply N.Div0.div_lt_upper_bound; lia).
    pose proof (Hm cp). pose proof (Hm (cp / 0x40)). repeat constructor; lia. }
  assert (cp / 0x40000 < 0x5) by (apply N.Div0.div_lt_upper_bound; lia).
  pose proof (Hm cp). pose proof (Hm (cp / 0x40)). pose proof (Hm (cp / 0x1000)).
  repeat constructor; lia.
Qed.

Lemma escape_encoded (cp : N) :
  cp < 0x110000 -> all_chars encoded_char (escape cp) = true.
Proof.
  intros H. unfold escape. pose proof (utf8_octets cp H) as F.
  induction F as [|b l Hb F IH]; [reflexivity|].
  destruct l as [|b' l'].
  - cbn [map String.concat]. apply percent_encoded, Hb.
  - change (String.concat "" (map percent (b :: b' :: l')))
      with (percent b ++ String.concat "" (map percent (b' :: l'))).
    rewrite all_chars_app, percent_encoded by exact Hb. exact IH.
Qed.

(** The output of [encodeURIComponent] holds only unreserved characters
    and percent escapes. *)
Lemma encodeURIComponent_encoded (s : JsString) (enc : string) :
  js_wf s = true ->
  encodeURIComponent s = Normal enc ->
  all_chars encoded_char enc = true.
Proof.
  remember (length s) as n eqn:Hn. revert s enc Hn.
  induction n as [n IH] using lt_wf_ind. intros s enc Hn Hwf H.
  destruct s as [|c rest]; [cbn in H; injection H as <-; reflexivity|].
  cbn [js_wf forallb] in Hwf. apply andb_true_iff in Hwf. destruct Hwf as [Hc Hrest].
  unfold code_unit in Hc. apply N.ltb_lt in Hc.
  cbn [encodeURIComponent] in H.
  destruct (uriUnescaped c) eqn:Hu.
  - destruct (encodeURIComponent rest) as [enc'|] eqn:E; [|discriminate].
    cbn in H. injection H as <-. cbn [all_chars].
    rewrite (IH (length rest) ltac:(subst n; cbn; lia) rest enc' eq_refl Hrest E).
    rewrite andb_true_r. unfold encoded_char.
    rewrite N_ascii_embedding by (apply uriUnescaped_ascii in Hu; lia).
    rewrite Hu. reflexivity.
  - destruct (is_trailing_surrogate c) eqn:Ht; [discriminate|].
    destruct (is_leading_surrogate c) eqn:Hl.
    + destruct rest as [|d rest']; [discriminate|].
      destruct (is_trailing_surrogate d) eqn:Hd; [|discriminate].
      destruct (encodeURIComponent rest') as [enc'|] eqn:E; [|discriminate].
      cbn in H. injection H as <-.
      cbn [forallb] in Hrest. apply andb_true_iff in Hrest. destruct Hrest as [_ Hrest].
      rewrite all_chars_app.
      rewrite (IH (length rest') ltac:(subst n; cbn; lia) rest' enc' eq_refl Hrest E).
      rewrite escape_encoded; [reflexivity|].
      unfold is_leading_surrogate, is_trailing_surrogate, in_range in Hl, Hd.
      unfold surrogate_pair. bool_to_prop. lia.
    + destruct (encodeURIComponent rest) as [enc'|] eqn:E; [|discriminate].
      cbn in H. injection H as <-.
      rewrite all_chars_app.
      rewrite (IH (length rest) ltac:(subst n; cbn; lia) rest enc' eq_refl Hrest E).
      rewrite escape_encoded; [reflexivity|lia].
Qed.

(** *** The model on concrete strings *)

Example encodeURIComponent_space :
  encodeURIComponent (js "New York") = Normal "New%20York".
Proof. reflexivity. Qed.

Example encodeURIComponent_reserved :
  encodeURIComponent (js "a&b=c/d?e#f+g,h;i:j@k$l")
  = Normal "a%26b%3Dc%2Fd%3Fe%23f%2Bg%2Ch%3Bi%3Aj%40k%24l".
Proof. reflexivity. Qed.

Example encodeURIComponent_unreserved :
  encodeURIComponent (js "AZaz09-_.!~*'()") = Normal "AZaz09-_.!~*'()".
Proof. reflexivity. Qed.

(** U+00E9, U+20AC and the pair D83D DE00 (U+1F600): two, three and four
    octets. *)
Example encodeURIComponent_non_ascii :
  encodeURIComponent [0xE9; 0x20AC; 0xD83D; 0xDE00]
  = Normal "%C3%A9%E2%82%AC%F0%9F%98%80".
Proof. reflexivity. Qed.

Example encodeURIComponent_unpaired :
  encodeURIComponent [0xD83D] = Throw URIError /\
  encodeURIComponent [0xDE00; 65] = Throw URIError /\
  encodeURIComponent [65; 0xD83D; 66] = Throw URIError.
Proof. repeat split. Qed.

Lemma string_app_assoc (a b c : string) : (a ++ b) ++ c = a ++ b ++ c.
Proof. induction a as [|x a IH]; cbn; [reflexivity|]. rewrite IH. reflexivity. Qed.

Lemma hexval_hexdigit (d : N) :
  d < 16 -> JSON.hexval (N_of_ascii (hexdigit d)) = Some d.
Proof.
  intros H.
  assert (d = 0 \/ d = 1 \/ d = 2 \/ d = 3 \/ d = 4 \/ d = 5 \/ d = 6 \/ d = 7 \/
          d = 8 \/ d = 9 \/ d = 10 \/ d = 11 \/ d = 12 \/ d = 13 \/ d = 14 \/ d = 15)
    as C by lia.
  repeat (destruct C as [->|C]; [reflexivity|]). subst d. reflexivity.
Qed.

Lemma percent_decode_percent (octet : N) (rest : string) :
  octet < 256 ->
  percent_decode (percent octet ++ rest)
  = option_map (cons octet) (percent_decode rest).
Proof.
  intros H. unfold percent. cbn [append percent_decode].
  change (N_of_ascii "%" =? 37) with true. cbn match.
  rewrite !hexval_hexdigit.
  - rewrite N.mul_comm, <- N.div_mod by lia. destruct (percent_decode rest); reflexivity.
  - apply N.mod_lt. lia.
  - apply N.Div0.div_lt_upper_bound. lia.
Qed.

Lemma percent_decode_escape (cp : N) (rest : string) :
  cp < 0x110000 ->
  percent_decode (escape cp ++ rest)
  = option_map (app (utf8 cp)) (percent_decode rest).
Proof.
  intros H. unfold escape. pose proof (utf8_octets cp H) as F.
  induction F as [|b l Hb F IH].
  - cbn. destruct (percent_decode rest); reflexivity.
  - destruct l as [|b' l'].
    + cbn [map String.concat]. rewrite percent_decode_percent by exact Hb.
      destruct (percent_decode rest); reflexivity.
    + change (String.concat "" (map percent (b :: b' :: l')))
        with (percent b ++ String.concat "" (map percent (b' :: l'))).
      rewrite string_app_assoc, percent_decode_percent by exact Hb.
      rewrite IH. destruct (percent_decode rest); reflexivity.
Qed.

(** Decoding the output of [encodeURIComponent] gives back the UTF-8
    octets of the string. *)
Lemma encodeURIComponent_decodes (s : JsString) (enc : string) :
  js_wf s = true ->
  encodeURIComponent s = Normal enc ->
  percent_decode enc = Some (flat_map utf8 (code_points s)).
Proof.
  remember (length s) as n eqn:Hn. revert s enc Hn.
  induction n as [n IH] using lt_wf_ind. intros s enc Hn Hwf H.
  destruct s as [|c rest]; [cbn in H; injection H as <-; reflexivity|].
  cbn [js_wf forallb] in Hwf. apply andb_true_iff in Hwf. destruct Hwf as [Hc Hrest].
  unfold code_unit in Hc. apply N.ltb_lt in Hc.
  cbn [encodeURIComponent] in H. cbn [code_points].
  destruct (uriUnescaped c) eqn:Hu.
  - destruct (uriUnescaped_not_surrogate c Hu) as [_ ->].
    pose proof (uriUnescaped_ascii c Hu) as Hlt.
    destruct (encodeURIComponent rest) as [enc'|] eqn:E; [|discriminate].
    cbn in H. injection H as <-. cbn [percent_decode flat_map].
    rewrite N_ascii_embedding by lia.
    rewrite (IH (length rest) ltac:(subst n; cbn; lia) rest enc' eq_refl Hrest E).
    destruct (c =? 37) eqn:E37.
    + apply N.eqb_eq in E37. subst c. discriminate Hu.
    + cbn [option_map]. unfold utf8.
      replace (c <? 0x80) with true by (symmetry; apply N.ltb_lt; lia).
      reflexivity.
  - destruct (is_trailing_surrogate c) eqn:Ht; [discriminate|].
    destruct (is_leading_surrogate c) eqn:Hl.
    + destruct rest as [|d rest']; [discriminate|].
      destruct (is_trailing_surrogate d) eqn:Hd; [|discriminate].
      destruct (encodeURIComponent rest') as [enc'|] eqn:E; [|discriminate].
      cbn in H. injection H as <-.
      cbn [forallb] in Hrest. apply andb_true_iff in Hrest. destruct Hrest as [_ Hrest].
      rewrite percent_decode_escape.
      * rewrite (IH (length rest') ltac:(subst n; cbn; lia) rest' enc' eq_refl Hrest E).
        reflexivity.
      * unfold is_leading_surrogate, is_trailing_surrogate, in_range in Hl, Hd.
        unfold surrogate_pair. bool_to_prop. lia.
    + destruct (encodeURIComponent rest) as [enc'|] eqn:E; [|discriminate].
      cbn in H. injection H as <-.
      rewrite percent_decode_escape by lia.
      rewrite (IH (length rest) ltac:(subst n; cbn; lia) rest enc' eq_refl Hrest E).
      reflexivity.
Qed.

(** ** JSON.parse: the recursion is bounded by the text *)

Module JSONFacts.
Import JSON.

Ltac break_hyp_match :=
  match goal with
  | H : context [match ?x with _ => _ end] |- _ =>
      lazymatch x with
      | context [match _ with _ => _ end] => fail
      | _ => destruct x eqn:?
      end
  end.

Lemma skip_ws_length (s : JsString) : (length (skip_ws s) <= length s)%nat.
Proof.
  induction s as [|c r IH]; cbn [skip_ws length]; [lia|].
  destruct (is_ws c); cbn [length]; lia.
Qed.

Lemma cons_char_Some (x : N) p cs r :
  cons_char x p = Some (cs, r) -> exists cs', p = Some (cs', r) /\ cs = (x :: cs')%list.
Proof.
  unfold cons_char. destruct p as [[cs' r']|]; [|discriminate].
  intros H. injection H as <- <-. eauto.
Qed.

Lemma parse_chars_length (s cs r : JsString) :
  parse_chars s = Some (cs, r) -> (length r < length s)%nat.
Proof.
  remember (length s) as n eqn:Hn. revert s cs r Hn.
  induction n as [n IH] using lt_wf_ind. intros s cs r Hn H. subst n.
  destruct s as [|c s']; [discriminate|]. cbn [parse_chars] in H.
  repeat (break_hyp_match; try discriminate);
    try (apply cons_char_Some in H; destruct H as [cs' [H _]];
         match type of H with
         | parse_chars ?x = Some (_, ?y) =>
             assert (length y < length x)%nat
               by (eapply IH; [|reflexivity|exact H]; cbn [length]; lia)
         end; cbn [length] in *; lia).
  injection H as <- <-. cbn [length]. lia.
Qed.

Lemma take_digits_length (s : JsString) ds r :
  take_digits s = (ds, r) -> (length r <= length s)%nat.
Proof.
  revert ds r. induction s as [|c s' IH]; cbn; intros ds r H.
  - injection H as <- <-. cbn. lia.
  - destruct (is_digit c).
    + destruct (take_digits s') as [ds' r'] eqn:E. injection H as <- <-.
      specialize (IH _ _ eq_refl). lia.
    + injection H as <- <-. cbn. lia.
Qed.

Lemma nonempty_digits_length (s : JsString) ds r :
  nonempty_digits s = Some (ds, r) -> (length r <= length s)%nat.
Proof.
  unfold nonempty_digits. destruct (take_digits s) as [ds' r'] eqn:E.
  apply take_digits_length in E. destruct ds'; [discriminate|].
  intros H. injection H as <- <-. exact E.
Qed.

Lemma parse_frac_length (s : JsString) fs r :
  parse_frac s = Some (fs, r) -> (length r <= length s)%nat.
Proof.
  unfold parse_frac. destruct s as [|c s']; intros H.
  - injection H as <- <-. cbn. lia.
  - destruct (c =? 46).
    + apply nonempty_digits_length in H. cbn. lia.
    + injection H as <- <-. lia.
Qed.

Lemma parse_exp_length (s : JsString) e r :
  parse_exp s = Some (e, r) -> (length r <= length s)%nat.
Proof.
  unfold parse_exp. intros H.
  repeat (break_hyp_match; try discriminate);
    repeat match goal with
      | E : nonempty_digits _ = Some _ |- _ => apply nonempty_digits_length in E
      end;
    injection H as <- <-; cbn [length] in *; lia.
Qed.

Lemma parse_number_length (s : JsString) v r :
  parse_number s = Some (v, r) -> (length r < length s)%nat.
Proof.
  unfold parse_number. intros H.
  repeat (break_hyp_match; try discriminate);
    repeat match goal with
      | E : take_digits _ = _ |- _ => apply take_digits_length in E
      | E : parse_frac _ = Some _ |- _ => apply parse_frac_length in E
      | E : parse_exp _ = Some _ |- _ => apply parse_exp_length in E
      | E : (_, _) = (_, _) |- _ => injection E as <- <-
      end;
    injection H as <- <-; cbn [length] in *; lia.
Qed.

Lemma strip_prefix_length (p s r : JsString) :
  strip_prefix p s = Some r -> (length r <= length s)%nat.
Proof.
  revert s. induction p as [|a p IH]; intros s H; cbn [strip_prefix] in H.
  - injection H as <-. lia.
  - destruct s as [|b s']; [discriminate|].
    destruct (a =? b); [|discriminate]. apply IH in H. cbn [length]. lia.
Qed.

Lemma parse_key_length (s k r : JsString) :
  parse_key s = Some (k, r) -> (length r < length s)%nat.
Proof.
  unfold parse_key. intros H. pose proof (skip_ws_length s) as L.
  destruct (skip_ws s) as [|c s1]; [discriminate|].
  destruct (c =? 34); [|discriminate].
  destruct (parse_chars s1) as [[k' r1]|] eqn:E; [|discriminate].
  apply parse_chars_length in E. pose proof (skip_ws_length r1) as L1.
  destruct (skip_ws r1) as [|d r2]; [discriminate|].
  destruct (d =? 58); [|discriminate].
  injection H as <- <-. cbn [length] in *. lia.
Qed.

Ltac length_facts :=
  repeat match goal with
    | E : skip_ws ?s = _ |- _ =>
        let L := fresh "L" in
        pose proof (skip_ws_length s) as L; rewrite E in L; clear E
    | E : parse_key _ = Some (_, _) |- _ => apply parse_key_length in E
    | E : parse_chars _ = Some (_, _) |- _ => apply parse_chars_length in E
    | E : strip_prefix _ _ = Some _ |- _ => apply strip_prefix_length in E
    | E : parse_number _ = Some (_, _) |- _ => apply parse_number_length in E
    end;
  cbn [length] in *.

(** A successful parse consumes at least one character. *)
Lemma parse_value_length (fuel : nat) :
  (forall s v r, parse_value fuel s = Some (v, r) -> (length r < length s)%nat) /\
  (forall s vs r, parse_elements fuel s = Some (vs, r) -> (length r < length s)%nat) /\
  (forall s ms r, parse_members fuel s = Some (ms, r) -> (length r < length s)%nat).
Proof.
  induction fuel as [|fuel [IHv [IHe IHm]]].
  { repeat split; intros; discriminate. }
  repeat split; intros s v r H;
    cbn [parse_value parse_elements parse_members] in H;
    repeat (break_hyp_match; try discriminate);
    repeat match goal with
      | E : parse_value fuel _ = Some (_, _) |- _ => apply IHv in E
      | E : parse_elements fuel _ = Some (_, _) |- _ => apply IHe in E
      | E : parse_members fuel _ = Some (_, _) |- _ => apply IHm in E
      end;
    try (injection H as <- <-); length_facts; lia.
Qed.

Ltac parse_facts :=
  repeat match goal with
    | E : parse_value _ _ = Some (_, _) |- _ =>
        apply (proj1 (parse_value_length _)) in E
    | E : parse_elements _ _ = Some (_, _) |- _ =>
        apply (proj1 (proj2 (parse_value_length _))) in E
    | E : parse_members _ _ = Some (_, _) |- _ =>
        apply (proj2 (proj2 (parse_value_length _))) in E
    end;
  length_facts.

(** Fuel above the length of the text is never exhausted: the result does
    not depend on it. *)
Lemma parse_value_fuel (f1 : nat) :
  forall (f2 : nat) (s : JsString),
    (length s < f1)%nat -> (length s < f2)%nat ->
    parse_value f1 s = parse_value f2 s /\
    parse_elements f1 s = parse_elements f2 s /\
    parse_members f1 s = parse_members f2 s.
Proof.
  induction f1 as [|f1 IH]; intros f2 s H1 H2; [lia|].
  destruct f2 as [|f2]; [lia|].
  repeat split; cbn [parse_value parse_elements parse_members];
    repeat (match goal with
            | |- ?x = ?x => reflexivity
            | |- context [parse_value f1 ?x] =>
                replace (parse_value f1 x) with (parse_value f2 x)
                  by (symmetry; refine (proj1 (IH f2 x _ _)); parse_facts; lia)
            | |- context [parse_elements f1 ?x] =>
                replace (parse_elements f1 x) with (parse_elements f2 x)
                  by (symmetry; refine (proj1 (proj2 (IH f2 x _ _))); parse_facts; lia)
            | |- context [parse_members f1 ?x] =>
                replace (parse_members f1 x) with (parse_members f2 x)
                  by (symmetry; refine (proj2 (proj2 (IH f2 x _ _))); parse_facts; lia)
            | |- context [match ?x with _ => _ end] => destruct x eqn:?
            end).
Qed.

Lemma parse_fuel (fuel : nat) (text : JsString) :
  (length text < fuel)%nat ->
  parse_value fuel text = parse_value (S (length text)) text.
Proof.
  intros H. apply parse_value_fuel; lia.
Qed.

(** [JSON.parse] gives the parser more fuel than it can use: any larger
    amount yields the same value. *)
Lemma parse_any_fuel (fuel : nat) (text : JsString) :
  (length text < fuel)%nat ->
  parse text =
  match parse_value fuel text with
  | Some (v, r) => match skip_ws r with [] => Some v | _ :: _ => None end
  | None => None
  end.
Proof.
  intros H. unfold parse. rewrite (parse_fuel fuel text H). reflexivity.
Qed.

(** *** The model on concrete texts *)

Example parse_total_123 :
  JSON.parse total_123 = Some (JObj [(js "total", JNum 123 0)]).
Proof. reflexivity. Qed.

Example parse_whitespace_and_nesting :
  JSON.parse (js " [ 1 , [ true , false , null ] , { } , [ ] ] ")
  = Some (JArr [JNum 1 0; JArr [JBool true; JBool false; JNull]; JObj []; JArr []]).
Proof. reflexivity. Qed.

Example parse_numbers :
  JSON.parse (js "[0, 2.50, -3e2, -0.5E-3, 1e+2]")
  = Some (JArr [JNum 0 0; JNum 250 (-2); JNum (-3) 2; JNum (-5) (-4); JNum 1 2]).
Proof. reflexivity. Qed.

Example parse_escapes :
  JSON.parse (quoted "a\u0041\n\/\ud83d") = Some (JStr [97; 65; 10; 47; 0xD83D]).
Proof. reflexivity. Qed.

Example parse_rejects :
  map JSON.parse
    [js ""; js "nul"; js "01"; js "1."; js "-"; js ".5"; js "[1,]"; js "[1 2]";
     js "{,}"; js "{1:2}"; js "123 x"; js "'a'"; js "<html>"; quoted "\x"]
  = repeat None 14.
Proof. reflexivity. Qed.

End JSONFacts.

(** ** Requests and diagnostics of one invocation *)

Lemma requests_invoke (c : Constants) (net : Network) (call : Call) :
  requests (trace (invoke c net call)) =
  match url_of c call with
  | Normal u => [("GET", u)]
  | Throw _ => []
  end.
Proof.
  rewrite invoke_outcome. unfold outcome.
  destruct (url_of c call) as [u|e]; [|reflexivity].
  destruct (net u) as [|r]; [reflexivity|].
  destruct (ok r); [|reflexivity].
  destruct (body r) as [text|]; [|reflexivity].
  destruct (JSON.parse text); reflexivity.
Qed.

Lemma request_url (c : Constants) (net : Network) (call : Call) (m u : string) :
  In (m, u) (requests (trace (invoke c net call))) ->
  m = "GET" /\ url_of c call = Normal u.
Proof.
  rewrite requests_invoke. destruct (url_of c call) as [u'|e]; cbn; [|tauto].
  intros [H|[]]. injection H as <- <-. split; reflexivity.
Qed.

Lemma url_of_Normal (c : Constants) (call : Call) (u : string) :
  url_of c call = Normal u ->
  exists enc, encodeURIComponent (jurisdiction call) = Normal enc /\
              u = API_URL c ++ endpoint call enc.
Proof.
  unfold url_of. destruct (encodeURIComponent (jurisdiction call)) as [enc|e]; cbn.
  - intros H. injection H as <-. eauto.
  - discriminate.
Qed.

Lemma url_of_isWellFormed (c : Constants) (call : Call) :
  isWellFormed (jurisdiction call) = true ->
  exists enc, encodeURIComponent (jurisdiction call) = Normal enc /\
              url_of c call = Normal (API_URL c ++ endpoint call enc).
Proof.
  intros W. pose proof (encodeURIComponent_isWellFormed (jurisdiction call)) as H.
  rewrite W in H. destruct H as [enc H]. exists enc. split; [exact H|].
  unfold url_of. rewrite H. reflexivity.
Qed.

Lemma ok_range (r : Response) :
  ok r = false <-> (status r < 200 \/ 299 < status r)%Z.
Proof.
  unfold ok. rewrite andb_false_iff, !Z.leb_gt. reflexivity.
Qed.

(** *** Three invocations, with their traces *)

Example getStats_success :
  ApiClient.getStats constants (stub 200 total_123) (Some (js "New York")) None (Some 2020%Z)
  = (Normal (JObj [(js "total", JNum 123 0)]),
     [Request "GET"
        "http://127.0.0.1:5000/api/stats?state=New%20York&min_year=2017&max_year=2020";
      ReadBody]).
Proof. reflexivity. Qed.

Example getPrediction_not_found :
  ApiClient.getPrediction constants (stub 404 total_123) None None
  = (Normal JNull,
     [Request "GET" "http://127.0.0.1:5000/api/predict?state=all&target_year=2024";
      ConsoleError (Error "API Error fetching prediction")]).
Proof. reflexivity. Qed.

Example getTrend_no_content :
  ApiClient.getTrend constants (stub 204 []) (Some (js "Goa"))
  = (Normal JNull,
     [Request "GET" "http://127.0.0.1:5000/api/chart/trend?state=Goa";
      ReadBody; ConsoleError SyntaxError]).
Proof. reflexivity. Qed.

(** Tactic: split an invocation into the cases of [outcome]. *)
Ltac outcome_cases c net call :=
  rewrite ?invoke_outcome in *; unfold outcome in *;
  let u := fresh "u" in let e := fresh "e" in let r := fresh "r" in
  let text := fresh "text" in let v := fresh "v" in
  let Eu := fresh "Eu" in let En := fresh "En" in let Eok := fresh "Eok" in
  let Eb := fresh "Eb" in let Ep := fresh "Ep" in
  destruct (url_of c call) as [u|e] eqn:Eu;
  [ destruct (net u) as [|r] eqn:En;
    [ | destruct (ok r) eqn:Eok;
        [ destruct (body r) as [text|] eqn:Eb;
          [ destruct (JSON.parse text) as [v|] eqn:Ep | ] | ] ] | ].

(* ===================================================================== *)
(** ** Error handling: every outcome is a value or null *)

(** C1. Each of the three operations is total and never rejects: for every
    constant, network and invocation it fulfils its promise with a value
    [v], and [v] is either [null] or the JSON value parsed from the body
    of a success response to the request it issued. Whatever error is
    caught and logged (transport error, non-success status, decode
    error), the value is [null]; in particular it is [null] when the
    request gets no response, a response with a non-success status, or a
    success response whose body is not a JSON text. *)
Theorem operations_total_value_or_null (c : Constants) (net : Network) (call : Call) :
  exists v : Json,
    result (invoke c net call) = Normal v /\
    (v = JNull \/
     exists u r text,
       In ("GET", u) (requests (trace (invoke c net call))) /\
       net u = Responds r /\ ok r = true /\ body r = Text text /\
       JSON.parse text = Some v) /\
    (forall e, In e (diagnostics (trace (invoke c net call))) -> v = JNull) /\
    (forall u,
        In ("GET", u) (requests (trace (invoke c net call))) ->
        net u = NetworkError \/
        (exists r, net u = Responds r /\
                   (ok r = false \/
                    exists text, body r = Text text /\ JSON.parse text = None)) ->
        v = JNull).
Proof.
  assert (forall u, In ("GET", u) (requests (trace (invoke c net call))) ->
                    url_of c call = Normal u) as Hreq
    by (intros u H; apply (request_url c net call) in H; tauto).
  outcome_cases c net call; cbn [result trace fst snd requests diagnostics In] in *.
  - exists JNull. repeat split; auto.
  - exists v. repeat split.
    + right. exists u, r, text. auto.
    + intros e [].
    + intros u' Hin Hf. specialize (Hreq u' Hin). injection Hreq as <-.
      destruct Hf as [Hf|[r' [Hr [Hf|[text' [Hb Hp]]]]]]; congruence.
  - exists JNull. repeat split; auto.
  - exists JNull. repeat split; auto.
  - exists JNull. repeat split; auto.
  - exists JNull. repeat split; auto.
Qed.

(** C2. If the request an operation issued is answered by a response whose
    status lies outside 200..299, the operation returns [null] whatever
    the body, and the body is never read or parsed. *)
Theorem non_success_status_yields_null
    (c : Constants) (net : Network) (call : Call) (u : string) (r : Response) :
  In ("GET", u) (requests (trace (invoke c net call))) ->
  net u = Responds r ->
  (status r < 200 \/ 299 < status r)%Z ->
  result (invoke c net call) = Normal JNull /\
  ~ In ReadBody (trace (invoke c net call)).
Proof.
  intros Hin Hnet Hst. apply ok_range in Hst.
  apply (request_url c net call) in Hin. destruct Hin as [_ Hu].
  rewrite invoke_outcome. unfold outcome. rewrite Hu, Hnet, Hst.
  cbn. split; [reflexivity|]. intros [H|[H|[]]]; discriminate.
Qed.

Lemma non_success_status_yields_null_witness :
  result (invoke constants (stub 404 (js "{}")) (CallStats None None None)) = Normal JNull /\
  ~ In ReadBody (trace (invoke constants (stub 404 (js "{}")) (CallStats None None None))).
Proof.
  apply (non_success_status_yields_null constants (stub 404 (js "{}"))
           (CallStats None None None)
           "http://127.0.0.1:5000/api/stats?state=all&min_year=2017&max_year=2023"
           {| status := 404; body := Text (js "{}") |}).
  - cbn. left. reflexivity.
  - reflexivity.
  - cbn. right. lia.
Defined.

(** C4. If the request an operation issued meets a transport-level failure
    (no response: connection refused, DNS failure, transport timeout),
    the operation returns [null]. *)
Theorem transport_failure_yields_null
    (c : Constants) (net : Network) (call : Call) (u : string) :
  In ("GET", u) (requests (trace (invoke c net call))) ->
  net u = NetworkError ->
  result (invoke c net call) = Normal JNull.
Proof.
  intros Hin Hnet.
  apply (request_url c net call) in Hin. destruct Hin as [_ Hu].
  rewrite invoke_outcome. unfold outcome. rewrite Hu, Hnet. reflexivity.
Qed.

Lemma transport_failure_yields_null_witness :
  result (invoke constants unreachable (CallTrend (Some (js "Goa")))) = Normal JNull.
Proof.
  apply (transport_failure_yields_null constants unreachable (CallTrend (Some (js "Goa")))
           "http://127.0.0.1:5000/api/chart/trend?state=Goa").
  - cbn. left. reflexivity.
  - reflexivity.
Defined.

(** C5. If the request an operation issued is answered by a success
    response (status 200, or any status in 200..299) whose body is not a
    JSON text, the operation returns [null] through the catch block that
    also handles a transport failure: the error is logged once and [null]
    is returned, in both cases. *)
Theorem malformed_body_yields_null
    (c : Constants) (net : Network) (call : Call) (u : string) (r : Response)
    (text : JsString) :
  In ("GET", u) (requests (trace (invoke c net call))) ->
  net u = Responds r ->
  ok r = true ->
  body r = Text text ->
  JSON.parse text = None ->
  result (invoke c net call) = Normal JNull /\
  diagnostics (trace (invoke c net call)) = [SyntaxError] /\
  result (invoke c unreachable call) = Normal JNull /\
  diagnostics (trace (invoke c unreachable call)) = [TypeError].
Proof.
  intros Hin Hnet Hok Hb Hp.
  apply (request_url c net call) in Hin. destruct Hin as [_ Hu].
  rewrite !invoke_outcome. unfold outcome, unreachable.
  rewrite Hu, Hnet, Hok, Hb, Hp. cbn. auto.
Qed.

Lemma malformed_body_yields_null_witness :
  result (invoke constants (stub 200 (js "<html>Oops</html>")) (CallPrediction None None))
  = Normal JNull /\
  diagnostics (trace (invoke constants (stub 200 (js "<html>Oops</html>"))
                        (CallPrediction None None))) = [SyntaxError] /\
  result (invoke constants unreachable (CallPrediction None None)) = Normal JNull /\
  diagnostics (trace (invoke constants unreachable (CallPrediction None None)))
  = [TypeError].
Proof.
  apply (malformed_body_yields_null constants (stub 200 (js "<html>Oops</html>"))
           (CallPrediction None None)
           "http://127.0.0.1:5000/api/predict?state=all&target_year=2024"
           {| status := 200; body := Text (js "<html>Oops</html>") |}
           (js "<html>Oops</html>")).
  - cbn. left. reflexivity.
  - reflexivity.
  - reflexivity.
  - reflexivity.
  - vm_compute. reflexivity.
Defined.

(* ===================================================================== *)
(** ** Success: the payload is passed through *)

Lemma success_yields_parsed_value
    (c : Constants) (net : Network) (call : Call) (u : string) (r : Response)
    (text : JsString) (v : Json) :
  url_of c call = Normal u ->
  net u = Responds r ->
  ok r = true ->
  body r = Text text ->
  JSON.parse text = Some v ->
  invoke c net call = (Normal v, [Request "GET" u; ReadBody]).
Proof.
  intros Hu Hnet Hok Hb Hp. rewrite invoke_outcome. unfold outcome.
  rewrite Hu, Hnet, Hok, Hb, Hp. reflexivity.
Qed.

(** C3. A success response is returned as parsed, unchanged: whenever the
    request an operation issued is answered with a status in 200..299 and
    a body that is a JSON text, the operation resolves to exactly the
    value of that text. In particular, for every well-formed jurisdiction
    and every year range, getStats against a backend answering 200 with
    the body [total_123] resolves to the object with the single member
    total = 123, and getPrediction(CA, 2025) against a backend answering
    200 with [prediction_2025] resolves to the object with year = 2025 and
    predicted = 4200. *)
Theorem success_payload_returned_unmodified (c : Constants) :
  (forall (net : Network) (call : Call) (u : string) (r : Response)
          (text : JsString) (v : Json),
      In ("GET", u) (requests (trace (invoke c net call))) ->
      net u = Responds r -> ok r = true -> body r = Text text ->
      JSON.parse text = Some v ->
      result (invoke c net call) = Normal v) /\
  (forall (state : option JsString) (minYear maxYear : option Z),
      isWellFormed (default (js "all") state) = true ->
      result (ApiClient.getStats c (stub 200 total_123) state minYear maxYear)
      = Normal (JObj [(js "total", JNum 123 0)])) /\
  result (ApiClient.getPrediction c (stub 200 prediction_2025)
            (Some (js "CA")) (Some 2025%Z))
  = Normal (JObj [(js "year", JNum 2025 0); (js "predicted", JNum 4200 0)]).
Proof.
  split; [|split].
  - intros net call u r text v Hin Hnet Hok Hb Hp.
    apply (request_url c net call) in Hin. destruct Hin as [_ Hu].
    rewrite (success_yields_parsed_value c net call u r text v) by assumption.
    reflexivity.
  - intros state minYear maxYear W.
    destruct (url_of_isWellFormed c (CallStats state minYear maxYear) W)
      as [enc [_ Hu]].
    change (ApiClient.getStats c (stub 200 total_123) state minYear maxYear)
      with (invoke c (stub 200 total_123) (CallStats state minYear maxYear)).
    erewrite success_yields_parsed_value; try exact Hu; try reflexivity.
  - destruct (url_of_isWellFormed c (CallPrediction (Some (js "CA")) (Some 2025%Z))
                eq_refl) as [enc [_ Hu]].
    change (ApiClient.getPrediction c (stub 200 prediction_2025)
              (Some (js "CA")) (Some 2025%Z))
      with (invoke c (stub 200 prediction_2025)
              (CallPrediction (Some (js "CA")) (Some 2025%Z))).
    erewrite success_yields_parsed_value; try exact Hu; try reflexivity.
Qed.

Lemma success_payload_returned_unmodified_witness :
  result (ApiClient.getStats constants (stub 200 total_123)
            (Some (js "Tamil Nadu")) (Some 2019%Z) (Some 2021%Z))
  = Normal (JObj [(js "total", JNum 123 0)]).
Proof.
  apply (proj1 (proj2 (success_payload_returned_unmodified constants))
           (Some (js "Tamil Nadu")) (Some 2019%Z) (Some 2021%Z)).
  reflexivity.
Defined.

(** C10. A success response whose body is the JSON text null makes the
    operation resolve to [null] with nothing logged: no error occurred,
    yet the value is the one every failure yields (no response, a
    non-success status, a malformed body), so the caller cannot tell
    them apart. *)
Theorem json_null_payload_indistinguishable_from_failure
    (c : Constants) (net : Network) (call : Call) (u : string) (r : Response) :
  In ("GET", u) (requests (trace (invoke c net call))) ->
  net u = Responds r ->
  status r = 200%Z ->
  body r = Text (js "null") ->
  result (invoke c net call) = Normal JNull /\
  diagnostics (trace (invoke c net call)) = [] /\
  result (invoke c unreachable call) = result (invoke c net call) /\
  result (invoke c (stub 500 (js "null")) call) = result (invoke c net call) /\
  result (invoke c (stub 200 (js "nul")) call) = result (invoke c net call) /\
  diagnostics (trace (invoke c unreachable call)) = [TypeError].
Proof.
  intros Hin Hnet Hst Hb.
  apply (request_url c net call) in Hin. destruct Hin as [_ Hu].
  assert (ok r = true) as Hok by (unfold ok; rewrite Hst; reflexivity).
  rewrite !invoke_outcome. unfold outcome, unreachable, stub.
  rewrite Hu, Hnet, Hok, Hb. cbn. auto 7.
Qed.

Lemma json_null_payload_indistinguishable_from_failure_witness :
  result (invoke constants (stub 200 (js "null")) (CallStats None None None))
  = Normal JNull /\
  diagnostics (trace (invoke constants (stub 200 (js "null"))
                        (CallStats None None None))) = [] /\
  result (invoke constants unreachable (CallStats None None None))
  = result (invoke constants (stub 200 (js "null")) (CallStats None None None)) /\
  result (invoke constants (stub 500 (js "null")) (CallStats None None None))
  = result (invoke constants (stub 200 (js "null")) (CallStats None None None)) /\
  result (invoke constants (stub 200 (js "nul")) (CallStats None None None))
  = result (invoke constants (stub 200 (js "null")) (CallStats None None None)) /\
  diagnostics (trace (invoke constants unreachable (CallStats None None None)))
  = [TypeError].
Proof.
  apply (json_null_payload_indistinguishable_from_failure constants
           (stub 200 (js "null")) (CallStats None None None)
           "http://127.0.0.1:5000/api/stats?state=all&min_year=2017&max_year=2023"
           {| status := 200; body := Text (js "null") |}).
  - cbn. left. reflexivity.
  - reflexivity.
  - reflexivity.
  - reflexivity.
Defined.

(* ===================================================================== *)
(** ** The request URL *)

(** C6. The jurisdiction is percent-encoded before it is placed in the
    request URL of every operation: the URL of a request is the base
    address, then the endpoint with [encodeURIComponent] of the
    jurisdiction as the value of state, and that value holds only
    unreserved characters and percent escapes, which decode to the UTF-8
    octets of the jurisdiction; a space or an ampersand never appears in
    it. New York is sent as New%20York by each of the
    three operations, and an ampersand as %26. *)
Theorem jurisdiction_percent_encoded :
  (forall (c : Constants) (net : Network) (call : Call) (m u : string),
      js_wf (jurisdiction call) = true ->
      In (m, u) (requests (trace (invoke c net call))) ->
      exists enc,
        encodeURIComponent (jurisdiction call) = Normal enc /\
        u = API_URL c ++ endpoint call enc /\
        all_chars encoded_char enc = true /\
        percent_decode enc = Some (flat_map utf8 (code_points (jurisdiction call)))) /\
  encoded_char " " = false /\
  encoded_char "&" = false /\
  (forall net : Network,
      requests (trace (ApiClient.getStats constants net (Some (js "New York")) None None))
      = [("GET", "http://127.0.0.1:5000/api/stats?state=New%20York&min_year=2017&max_year=2023")] /\
      requests (trace (ApiClient.getTrend constants net (Some (js "New York"))))
      = [("GET", "http://127.0.0.1:5000/api/chart/trend?state=New%20York")] /\
      requests (trace (ApiClient.getPrediction constants net (Some (js "New York")) None))
      = [("GET", "http://127.0.0.1:5000/api/predict?state=New%20York&target_year=2024")] /\
      requests (trace (ApiClient.getTrend constants net (Some (js "Jammu & Kashmir"))))
      = [("GET", "http://127.0.0.1:5000/api/chart/trend?state=Jammu%20%26%20Kashmir")]).
Proof.
  split; [|split; [reflexivity|split; [reflexivity|]]].
  - intros c net call m u Hwf Hin.
    apply (request_url c net call) in Hin. destruct Hin as [_ Hu].
    apply url_of_Normal in Hu. destruct Hu as [enc [He ->]].
    exists enc. repeat split; [exact He| |].
    + exact (encodeURIComponent_encoded _ _ Hwf He).
    + exact (encodeURIComponent_decodes _ _ Hwf He).
  - intros net.
    change (ApiClient.getStats constants net (Some (js "New York")) None None)
      with (invoke constants net (CallStats (Some (js "New York")) None None)).
    change (ApiClient.getTrend constants net (Some (js "New York")))
      with (invoke constants net (CallTrend (Some (js "New York")))).
    change (ApiClient.getPrediction constants net (Some (js "New York")) None)
      with (invoke constants net (CallPrediction (Some (js "New York")) None)).
    change (ApiClient.getTrend constants net (Some (js "Jammu & Kashmir")))
      with (invoke constants net (CallTrend (Some (js "Jammu & Kashmir")))).
    rewrite !requests_invoke. repeat split; reflexivity.
Qed.

Lemma jurisdiction_percent_encoded_witness :
  exists enc,
    encodeURIComponent (js "Dadra & Nagar Haveli") = Normal enc /\
    "http://127.0.0.1:5000/api/chart/trend?state=Dadra%20%26%20Nagar%20Haveli"
    = "http://127.0.0.1:5000/api" ++ "/chart/trend?state=" ++ enc /\
    all_chars encoded_char enc = true /\
    percent_decode enc = Some (js "Dadra & Nagar Haveli").
Proof.
  apply (proj1 jurisdiction_percent_encoded constants unreachable
           (CallTrend (Some (js "Dadra & Nagar Haveli"))) "GET"
           "http://127.0.0.1:5000/api/chart/trend?state=Dadra%20%26%20Nagar%20Haveli").
  - reflexivity.
  - cbn. left. reflexivity.
Defined.

(** C7. Omitted arguments take the documented defaults: with no arguments
    getTrend requests state=all, getPrediction requests
    state=all&target_year=2024 and getStats requests
    state=all&min_year=2017&max_year=2023; and an invocation with an
    argument omitted is the invocation with the default passed
    explicitly. *)
Theorem defaults_applied (net : Network) :
  requests (trace (ApiClient.getTrend constants net None))
  = [("GET", "http://127.0.0.1:5000/api/chart/trend?state=all")] /\
  requests (trace (ApiClient.getPrediction constants net None None))
  = [("GET", "http://127.0.0.1:5000/api/predict?state=all&target_year=2024")] /\
  requests (trace (ApiClient.getStats constants net None None None))
  = [("GET", "http://127.0.0.1:5000/api/stats?state=all&min_year=2017&max_year=2023")] /\
  (forall c : Constants,
      ApiClient.getTrend c net None = ApiClient.getTrend c net (Some (js "all")) /\
      (forall targetYear,
          ApiClient.getPrediction c net None targetYear
          = ApiClient.getPrediction c net (Some (js "all")) targetYear) /\
      (forall state,
          ApiClient.getPrediction c net state None
          = ApiClient.getPrediction c net state (Some 2024%Z)) /\
      (forall minYear maxYear,
          ApiClient.getStats c net None minYear maxYear
          = ApiClient.getStats c net (Some (js "all")) minYear maxYear) /\
      (forall state maxYear,
          ApiClient.getStats c net state None maxYear
          = ApiClient.getStats c net state (Some 2017%Z) maxYear) /\
      (forall state minYear,
          ApiClient.getStats c net state minYear None
          = ApiClient.getStats c net state minYear (Some 2023%Z))).
Proof.
  change (ApiClient.getTrend constants net None)
    with (invoke constants net (CallTrend None)).
  change (ApiClient.getPrediction constants net None None)
    with (invoke constants net (CallPrediction None None)).
  change (ApiClient.getStats constants net None None None)
    with (invoke constants net (CallStats None None None)).
  rewrite !requests_invoke.
  repeat split; reflexivity.
Qed.

(** C9. Every request URL of the three operations is the constant API_URL
    followed by the endpoint path and query string; in the script that
    constant is http://127.0.0.1:5000/api, the loopback address on port
    5000 with the /api prefix. The other constant, API_BASE_URL, is never
    used: changing it changes nothing in what an operation does. *)
Theorem requests_use_active_base_address :
  API_URL constants = "http://127.0.0.1:5000/api" /\
  (forall (c : Constants) (net : Network) (call : Call) (m u : string),
      In (m, u) (requests (trace (invoke c net call))) ->
      exists enc,
        encodeURIComponent (jurisdiction call) = Normal enc /\
        u = API_URL c ++ endpoint call enc) /\
  (forall (c c' : Constants) (net : Network) (call : Call),
      API_URL c = API_URL c' ->
      invoke c net call = invoke c' net call) /\
  (forall (other : string) (net : Network) (call : Call),
      invoke {| API_BASE_URL := other; API_URL := API_URL constants |} net call
      = invoke constants net call).
Proof.
  split; [reflexivity|]. split; [|split].
  - intros c net call m u Hin.
    apply (request_url c net call) in Hin. destruct Hin as [_ Hu].
    apply url_of_Normal in Hu. exact Hu.
  - intros c c' net call E. rewrite !invoke_outcome. unfold url_of.
    rewrite E. reflexivity.
  - intros other net call. rewrite !invoke_outcome. reflexivity.
Qed.

Lemma requests_use_active_base_address_witness :
  exists enc,
    encodeURIComponent (js "all") = Normal enc /\
    "http://127.0.0.1:5000/api/predict?state=all&target_year=2030"
    = "http://127.0.0.1:5000/api" ++ "/predict?state=" ++ enc ++ "&target_year=" ++ "2030".
Proof.
  apply (proj1 (proj2 requests_use_active_base_address) constants unreachable
           (CallPrediction None (Some 2030%Z)) "GET"
           "http://127.0.0.1:5000/api/predict?state=all&target_year=2030").
  cbn. left. reflexivity.
Defined.

(* ===================================================================== *)
(** ** Side effects: requests and diagnostics *)

(** C8, as the code has it. An invocation issues at most one request, a
    GET, and never repeats it: exactly one when the jurisdiction is
    well formed, none when it holds an unpaired surrogate, since
    [encodeURIComponent] then throws before [fetch] is reached. Exactly
    one diagnostic, the error caught, is logged on every failure path
    (URIError; TypeError for a transport failure or a broken body stream;
    the Error with the operation's message for a non-success status;
    SyntaxError for a malformed body), and none on the success path. *)
Theorem at_most_one_request_one_diagnostic_per_failure
    (c : Constants) (net : Network) (call : Call) :
  if isWellFormed (jurisdiction call)
  then exists u,
      requests (trace (invoke c net call)) = [("GET", u)] /\
      diagnostics (trace (invoke c net call)) =
      match net u with
      | NetworkError => [TypeError]
      | Responds r =>
          if ok r then
            match body r with
            | Aborted => [TypeError]
            | Text text =>
                match JSON.parse text with
                | Some _ => []
                | None => [SyntaxError]
                end
            end
          else [Error (message_of call)]
      end
  else requests (trace (invoke c net call)) = [] /\
       diagnostics (trace (invoke c net call)) = [URIError].
Proof.
  pose proof (encodeURIComponent_isWellFormed (jurisdiction call)) as W.
  destruct (isWellFormed (jurisdiction call)).
  - destruct W as [enc He]. exists (API_URL c ++ endpoint call enc).
    rewrite invoke_outcome. unfold url_of, outcome. rewrite He. cbn [cmap].
    destruct (net _) as [|r]; [split; reflexivity|].
    destruct (ok r); [|split; reflexivity].
    destruct (body r) as [text|]; [|split; reflexivity].
    destruct (JSON.parse text); split; reflexivity.
  - rewrite invoke_outcome. unfold url_of, outcome. rewrite W. split; reflexivity.
Qed.

(** C8, as the specification states it, fails: getTrend on a string that
    is one unpaired surrogate issues no request at all. *)
Lemma unpaired_surrogate_issues_no_request :
  requests (trace (ApiClient.getTrend constants (stub 200 (js "{}")) (Some [0xD800]))) = [] /\
  length (requests (trace (ApiClient.getTrend constants (stub 200 (js "{}"))
                             (Some [0xD800])))) <> 1%nat /\
  ApiClient.getTrend constants (stub 200 (js "{}")) (Some [0xD800])
  = (Normal JNull, [ConsoleError URIError]).
Proof.
  repeat split. vm_compute. discriminate.
Qed.

(* ===================================================================== *)
(** * Further properties of the operations *)

(** X1. An operation consults the network only at the URL it requests:
    two networks that answer that URL alike give the same result and the
    same events, whatever they do elsewhere. *)
Theorem network_consulted_only_at_request_url
    (c : Constants) (net net' : Network) (call : Call) :
  (forall m u, In (m, u) (requests (trace (invoke c net call))) -> net' u = net u) ->
  invoke c net' call = invoke c net call.
Proof.
  intros H. rewrite requests_invoke in H. rewrite !invoke_outcome.
  destruct (url_of c call) as [u|e]; [|reflexivity].
  unfold outcome. rewrite (H "GET" u) by (left; reflexivity). reflexivity.
Qed.

Lemma network_consulted_only_at_request_url_witness :
  invoke constants
    (fun u => if String.eqb u "http://127.0.0.1:5000/api/chart/trend?state=all"
              then Responds {| status := 200; body := Text total_123 |}
              else NetworkError)
    (CallTrend None)
  = invoke constants (stub 200 total_123) (CallTrend None).
Proof.
  apply (network_consulted_only_at_request_url constants (stub 200 total_123)).
  intros m u [H|[]]. injection H as <- <-. reflexivity.
Defined.

(** X2. Two responses with a non-success status cannot be told apart,
    neither by the caller nor in the log: whatever their statuses and
    bodies, the operation does the same, and the one diagnostic is the
    Error with the fixed message of the operation. *)

Theorem non_success_responses_indistinguishable
    (c : Constants) (net net' : Network) (call : Call) (u : string) (r r' : Response) :
  In ("GET", u) (requests (trace (invoke c net call))) ->
  net u = Responds r -> ok r = false ->
  net' u = Responds r' -> ok r' = false ->
  invoke c net call = invoke c net' call /\
  trace (invoke c net call) =
  [Request "GET" u;
   ConsoleError (Error match call with
                       | CallStats _ _ _ => "API Error fetching stats"
                       | CallTrend _ => "API Error fetching trend data"
                       | CallPrediction _ _ => "API Error fetching prediction"
                       end)].
Proof.
  intros Hin Hn Hok Hn' Hok'.
  apply (request_url c net call) in Hin. destruct Hin as [_ Hu].
  rewrite !invoke_outcome. unfold outcome. rewrite Hu, Hn, Hn', Hok, Hok'.
  split; [reflexivity|]. destruct call; reflexivity.
Qed.

Lemma non_success_responses_indistinguishable_witness :
  invoke constants (stub 404 (js "Not Found")) (CallStats None None None)
  = invoke constants (stub 500 total_123) (CallStats None None None) /\
  trace (invoke constants (stub 404 (js "Not Found")) (CallStats None None None)) =
  [Request "GET" "http://127.0.0.1:5000/api/stats?state=all&min_year=2017&max_year=2023";
   ConsoleError (Error "API Error fetching stats")].
Proof.
  apply (non_success_responses_indistinguishable constants
           (stub 404 (js "Not Found")) (stub 500 total_123) (CallStats None None None)
           "http://127.0.0.1:5000/api/stats?state=all&min_year=2017&max_year=2023"
           {| status := 404; body := Text (js "Not Found") |}
           {| status := 500; body := Text total_123 |}).
  - left. reflexivity.
  - reflexivity.
  - reflexivity.
  - reflexivity.
  - reflexivity.
Defined.

Lemma js_String (a : ascii) (t : string) : js (String a t) = N_of_ascii a :: js t.
Proof. reflexivity. Qed.

Lemma encodeURIComponent_unreserved_identity (text : string) :
  all_chars (fun a => uriUnescaped (N_of_ascii a)) text = true ->
  encodeURIComponent (js text) = Normal text.
Proof.
  induction text as [|a t IH]; [reflexivity|].
  cbn [all_chars]. intros H. apply andb_true_iff in H. destruct H as [Ha Ht].
  rewrite js_String. cbn [encodeURIComponent]. rewrite Ha, (IH Ht).
  cbn [cmap]. rewrite ascii_N_embedding. reflexivity.
Qed.

(** X3. A jurisdiction made only of letters, digits and the marks
    - _ . ! ~ * ' ( ) is placed in the URL unchanged, by each of the three
    operations. *)

Theorem unreserved_jurisdiction_sent_verbatim
    (c : Constants) (net : Network) (text : string)
    (minYear maxYear targetYear : option Z) :
  all_chars (fun a => uriUnescaped (N_of_ascii a)) text = true ->
  requests (trace (ApiClient.getStats c net (Some (js text)) minYear maxYear))
  = [("GET", API_URL c ++ "/stats?state=" ++ text
             ++ "&min_year=" ++ Number_toString (default 2017%Z minYear)
             ++ "&max_year=" ++ Number_toString (default 2023%Z maxYear))] /\
  requests (trace (ApiClient.getTrend c net (Some (js text))))
  = [("GET", API_URL c ++ "/chart/trend?state=" ++ text)] /\
  requests (trace (ApiClient.getPrediction c net (Some (js text)) targetYear))
  = [("GET", API_URL c ++ "/predict?state=" ++ text
             ++ "&target_year=" ++ Number_toString (default 2024%Z targetYear))].
Proof.
  intros H. apply encodeURIComponent_unreserved_identity in H.
  change (ApiClient.getStats c net (Some (js text)) minYear maxYear)
    with (invoke c net (CallStats (Some (js text)) minYear maxYear)).
  change (ApiClient.getTrend c net (Some (js text)))
    with (invoke c net (CallTrend (Some (js text)))).
  change (ApiClient.getPrediction c net (Some (js text)) targetYear)
    with (invoke c net (CallPrediction (Some (js text)) targetYear)).
  rewrite !requests_invoke. unfold url_of. cbn [jurisdiction default].
  rewrite H. repeat split; reflexivity.
Qed.

Lemma unreserved_jurisdiction_sent_verbatim_witness :
  requests (trace (ApiClient.getStats constants unreachable (Some (js "Goa")) None None))
  = [("GET", "http://127.0.0.1:5000/api/stats?state=Goa&min_year=2017&max_year=2023")] /\
  requests (trace (ApiClient.getTrend constants unreachable (Some (js "Goa"))))
  = [("GET", "http://127.0.0.1:5000/api/chart/trend?state=Goa")] /\
  requests (trace (ApiClient.getPrediction constants unreachable (Some (js "Goa")) None))
  = [("GET", "http://127.0.0.1:5000/api/predict?state=Goa&target_year=2024")].
Proof.
  apply (unreserved_jurisdiction_sent_verbatim constants unreachable "Goa" None None None).
  reflexivity.
Defined.

(** ** The encoding of the jurisdiction is injective *)

Lemma cons_eq_inv {A} (x y : A) (l l' : list A) :
  x :: l = y :: l' -> x = y /\ l = l'.
Proof. intros H. injection H as -> ->. split; reflexivity. Qed.

(** The code point is determined by its octets, and the first octet tells
    how many there are. *)

Lemma utf8_value (cp : N) :
  cp < 0x110000 ->
  match utf8 cp with
  | [b0] => cp = b0 /\ b0 < 0x80
  | [b0; b1] =>
      cp = (b0 - 0xC0) * 0x40 + (b1 - 0x80) /\ 0xC0 <= b0 < 0xE0 /\ 0x80 <= b1
  | [b0; b1; b2] =>
      cp = (b0 - 0xE0) * 0x1000 + (b1 - 0x80) * 0x40 + (b2 - 0x80) /\
      0xE0 <= b0 < 0xF0 /\ 0x80 <= b1 /\ 0x80 <= b2
  | [b0; b1; b2; b3] =>
      cp = (b0 - 0xF0) * 0x40000 + (b1 - 0x80) * 0x1000 + (b2 - 0x80) * 0x40
           + (b3 - 0x80) /\
      0xF0 <= b0 /\ 0x80 <= b1 /\ 0x80 <= b2 /\ 0x80 <= b3
  | _ => False
  end.
Proof.
  intros H. unfold utf8.
  destruct (cp <? 0x80) eqn:A1; [|destruct (cp <? 0x800) eqn:A2;
                                   [|destruct (cp <? 0x10000) eqn:A3]];
    bool_to_prop; repeat split; zify; Z.to_euclidean_division_equations; lia.
Qed.

Lemma utf8_app_inj (a b : N) (r1 r2 : list N) :
  a < 0x110000 -> b < 0x110000 ->
  (utf8 a ++ r1 = utf8 b ++ r2)%list -> a = b /\ r1 = r2.
Proof.
  intros Ha Hb H.
  pose proof (utf8_value a Ha) as Va. pose proof (utf8_value b Hb) as Vb.
  destruct (utf8 a) as [|a0 [|a1 [|a2 [|a3 [|]]]]]; try contradiction;
    destruct (utf8 b) as [|b0 [|b1 [|b2 [|b3 [|]]]]]; try contradiction;
    cbn [app] in H;
    repeat match goal with
      | E : _ :: _ = _ :: _ |- _ =>
          apply cons_eq_inv in E; let E1 := fresh "E" in destruct E as [E1 E]
      end;
    (split; [|first [assumption | exfalso]]); lia.
Qed.

Lemma flat_map_utf8_inj (l1 l2 : list N) :
  Forall (fun cp => cp < 0x110000) l1 ->
  Forall (fun cp => cp < 0x110000) l2 ->
  flat_map utf8 l1 = flat_map utf8 l2 -> l1 = l2.
Proof.
  intros F1. revert l2. induction F1 as [|a l1 Ha F1 IH]; intros l2 F2 H.
  - destruct F2 as [|b l2 Hb F2]; [reflexivity|].
    cbn [flat_map] in H. unfold utf8 in H.
    destruct (b <? 0x80), (b <? 0x800), (b <? 0x10000); discriminate.
  - destruct F2 as [|b l2 Hb F2].
    + cbn [flat_map] in H. unfold utf8 in H.
      destruct (a <? 0x80), (a <? 0x800), (a <? 0x10000); discriminate.
    + cbn [flat_map] in H. apply utf8_app_inj in H; [|assumption..].
      destruct H as [-> H]. f_equal. apply IH; assumption.
Qed.

Lemma list_ind_two {A} (P : list A -> Prop) :
  P [] -> (forall a, P [a]) ->
  (forall a b l, P l -> P (b :: l) -> P (a :: b :: l)) ->
  forall l, P l.
Proof.
  intros H0 H1 H2 l.
  assert (P l /\ forall a, P (a :: l)) as [H _]; [|exact H].
  induction l as [|b l [IH1 IH2]]; split; auto.
Qed.

Lemma code_points_bound (s : JsString) :
  js_wf s = true -> Forall (fun cp => cp < 0x110000) (code_points s).
Proof.
  induction s as [|c|c d rest IH1 IH2] using list_ind_two; intros Hwf.
  - constructor.
  - cbn [js_wf forallb] in Hwf. unfold code_unit in Hwf. bool_to_prop.
    cbn [code_points]. destruct (is_leading_surrogate c); repeat constructor; lia.
  - cbn [js_wf forallb] in Hwf. apply andb_true_iff in Hwf. destruct Hwf as [Hc Hwf].
    pose proof Hwf as Hwf'. cbn [forallb] in Hwf'.
    apply andb_true_iff in Hwf'. destruct Hwf' as [Hd Hrest].
    unfold code_unit in Hc, Hd. apply N.ltb_lt in Hc, Hd.
    cbn [code_points].
    destruct (is_leading_surrogate c) eqn:Hl.
    + destruct (is_trailing_surrogate d) eqn:Ht.
      * constructor; [|exact (IH1 Hrest)].
        unfold is_leading_surrogate, is_trailing_surrogate, in_range in Hl, Ht.
        unfold surrogate_pair. bool_to_prop. lia.
      * constructor; [lia|exact (IH2 Hwf)].
    + constructor; [lia|exact (IH2 Hwf)].
Qed.

Lemma code_points_cons (c : N) (rest : JsString) :
  code_points (c :: rest) =
  if is_leading_surrogate c then
    match rest with
    | d :: rest' =>
        if is_trailing_surrogate d
        then surrogate_pair c d :: code_points rest'
        else c :: code_points rest
    | [] => [c]
    end
  else c :: code_points rest.
Proof. reflexivity. Qed.

Lemma utf16_surrogate_pair (c d : N) :
  is_leading_surrogate c = true -> is_trailing_surrogate d = true ->
  utf16 (surrogate_pair c d) = [c; d].
Proof.
  unfold is_leading_surrogate, is_trailing_surrogate, in_range, utf16, surrogate_pair.
  intros Hl Ht. bool_to_prop.
  replace (_ <? 0x10000) with false by (symmetry; apply N.ltb_ge; lia).
  f_equal; [|f_equal]; zify; Z.to_euclidean_division_equations; lia.
Qed.

(** A well-formed string is the UTF-16 form of its code points. *)

Lemma utf16_code_points (s : JsString) :
  js_wf s = true -> isWellFormed s = true -> flat_map utf16 (code_points s) = s.
Proof.
  induction s as [|c|c d rest IH1 IH2] using list_ind_two; intros Hwf W.
  - reflexivity.
  - cbn [js_wf forallb] in Hwf. unfold code_unit in Hwf. bool_to_prop.
    cbn [isWellFormed] in W. cbn [code_points].
    destruct (is_trailing_surrogate c); [discriminate|].
    destruct (is_leading_surrogate c); [discriminate|].
    cbn [flat_map app]. unfold utf16.
    replace (c <? 0x10000) with true by (symmetry; apply N.ltb_lt; lia). reflexivity.
  - cbn [js_wf forallb] in Hwf. apply andb_true_iff in Hwf. destruct Hwf as [Hc Hwf].
    pose proof Hwf as Hwf'. cbn [forallb] in Hwf'.
    apply andb_true_iff in Hwf'. destruct Hwf' as [Hd Hrest].
    unfold code_unit in Hc. apply N.ltb_lt in Hc.
    cbn [isWellFormed] in W. rewrite (code_points_cons c (d :: rest)).
    destruct (is_trailing_surrogate c); [discriminate|].
    destruct (is_leading_surrogate c) eqn:Hl.
    + destruct (is_trailing_surrogate d) eqn:Ht; [|discriminate].
      cbn [andb] in W. cbn [flat_map].
      rewrite utf16_surrogate_pair, (IH1 Hrest W) by assumption. reflexivity.
    + cbn [flat_map]. rewrite (IH2 Hwf W). unfold utf16.
      replace (c <? 0x10000) with true by (symmetry; apply N.ltb_lt; lia). reflexivity.
Qed.

(** Two strings with the same encoding are the same string. *)
Lemma encodeURIComponent_injective (s1 s2 : JsString) (enc : string) :
  js_wf s1 = true -> js_wf s2 = true ->
  encodeURIComponent s1 = Normal enc ->
  encodeURIComponent s2 = Normal enc ->
  s1 = s2.
Proof.
  intros W1 W2 E1 E2.
  assert (isWellFormed s1 = true) as F1.
  { pose proof (encodeURIComponent_isWellFormed s1) as H.
    destruct (isWellFormed s1); [reflexivity|congruence]. }
  assert (isWellFormed s2 = true) as F2.
  { pose proof (encodeURIComponent_isWellFormed s2) as H.
    destruct (isWellFormed s2); [reflexivity|congruence]. }
  pose proof (encodeURIComponent_decodes s1 enc W1 E1) as D1.
  pose proof (encodeURIComponent_decodes s2 enc W2 E2) as D2.
  rewrite D1 in D2. injection D2 as D.
  apply flat_map_utf8_inj in D; [|apply code_points_bound; assumption..].
  rewrite <- (utf16_code_points s1 W1 F1), <- (utf16_code_points s2 W2 F2), D.
  reflexivity.
Qed.

(** ** The query string, as a server reads it *)

Lemma split_on_absent (sep : ascii) (s : string) :
  absent sep s = true -> split_on sep s = [s].
Proof.
  induction s as [|a s IH]; [reflexivity|].
  unfold absent. cbn [all_chars split_on]. intros H.
  apply andb_true_iff in H. destruct H as [Ha Hs].
  destruct (Ascii.eqb a sep); [discriminate|]. rewrite (IH Hs). reflexivity.
Qed.

Lemma split_on_app (sep : ascii) (a b : string) :
  absent sep a = true ->
  split_on sep (a ++ String sep b) = a :: split_on sep b.
Proof.
  induction a as [|x a IH]; intros H.
  - cbn [append split_on]. rewrite Ascii.eqb_refl. reflexivity.
  - unfold absent in H. cbn [all_chars] in H.
    apply andb_true_iff in H. destruct H as [Hx Ha].
    cbn [append split_on]. destruct (Ascii.eqb x sep); [discriminate|].
    rewrite (IH Ha). reflexivity.
Qed.


Lemma all_chars_impl (p q : ascii -> bool) (s : string) :
  (forall a, p a = true -> q a = true) ->
  all_chars p s = true -> all_chars q s = true.
Proof.
  intros Hpq. induction s as [|a s IH]; [reflexivity|].
  cbn [all_chars]. intros H. apply andb_true_iff in H. destruct H as [Ha Hs].
  rewrite (Hpq a Ha), (IH Hs). reflexivity.
Qed.

Lemma absent_app (sep : ascii) (a b : string) :
  absent sep (a ++ b) = absent sep a && absent sep b.
Proof. apply all_chars_app. Qed.

Lemma encoded_absent (sep : ascii) (enc : string) :
  encoded_char sep = false ->
  all_chars encoded_char enc = true -> absent sep enc = true.
Proof.
  intros Hsep. apply all_chars_impl. intros a Ha.
  destruct (Ascii.eqb_spec a sep) as [->|]; [congruence|reflexivity].
Qed.

Lemma year_absent (sep : ascii) (s : string) :
  year_char sep = false ->
  all_chars year_char s = true -> absent sep s = true.
Proof.
  intros Hsep. apply all_chars_impl. intros a Ha.
  destruct (Ascii.eqb_spec a sep) as [->|]; [congruence|reflexivity].
Qed.

Lemma string_of_uint_digits (d : Decimal.uint) :
  all_chars year_char (NilEmpty.string_of_uint d) = true.
Proof. induction d; cbn [NilEmpty.string_of_uint all_chars]; try rewrite IHd; reflexivity. Qed.

(** A year is written with decimal digits and at most a minus sign. *)

Lemma Number_toString_chars (n : Z) : all_chars year_char (Number_toString n) = true.
Proof.
  unfold Number_toString, NilZero.string_of_int, NilZero.string_of_uint.
  destruct (Z.to_int n) as [d|d]; destruct d; cbn [all_chars];
    try rewrite string_of_uint_digits; reflexivity.
Qed.

(** Reading the numeral back gives the year. *)

Lemma parse_year_Number_toString (n : Z) : parse_year (Number_toString n) = Some n.
Proof.
  unfold parse_year, Number_toString.
  rewrite NilZero.isi.
  - cbn [option_map]. rewrite DecimalZ.of_to. reflexivity.
  - destruct n; cbn; try discriminate.
    intros H. injection H as H. exact (DecimalPos.Unsigned.to_uint_nonnil _ H).
  - destruct n; cbn; try discriminate.
    intros H. injection H as H. exact (DecimalPos.Unsigned.to_uint_nonnil _ H).
Qed.

Lemma Number_toString_inj (n m : Z) : Number_toString n = Number_toString m -> n = m.
Proof.
  intros H. apply (f_equal parse_year) in H.
  rewrite !parse_year_Number_toString in H. congruence.
Qed.

Lemma string_app_inv_head (a x y : string) : a ++ x = a ++ y -> x = y.
Proof.
  induction a as [|c a IH]; cbn [append]; intros H; [exact H|].
  injection H as H. exact (IH H).
Qed.



Lemma encoded_no_separator (enc : string) :
  all_chars encoded_char enc = true ->
  absent "&" enc = true /\ absent "=" enc = true.
Proof. intros H. split; apply encoded_absent; auto. Qed.

Lemma year_no_separator (n : Z) : absent "&" (Number_toString n) = true.
Proof. apply year_absent; [reflexivity|apply Number_toString_chars]. Qed.

(** X4. What a server reads from the query string is what the caller
    passed. For each operation the URL is the base address, the path, a
    question mark and a query whose parameters are exactly those the
    operation writes, in order: state, then min_year and max_year, or
    target_year. No character of the jurisdiction adds or changes a
    parameter; the value of state decodes to the UTF-8 octets of the
    jurisdiction and each year reads back as the integer passed, defaults
    applied; the years are not compared with each other. *)



Lemma year_key_absent (key : string) (n : Z) :
  absent "&" key = true -> absent "&" (key ++ Number_toString n) = true.
Proof. intros H. rewrite absent_app, H, year_no_separator. reflexivity. Qed.

Lemma endpoint_inj (call1 call2 : Call) (e1 e2 : string) :
  absent "&" e1 = true -> absent "&" e2 = true ->
  endpoint call1 e1 = endpoint call2 e2 ->
  e1 = e2 /\
  match call1, call2 with
  | CallStats _ a b, CallStats _ a' b' =>
      default 2017%Z a = default 2017%Z a' /\ default 2023%Z b = default 2023%Z b'
  | CallTrend _, CallTrend _ => True
  | CallPrediction _ t, CallPrediction _ t' => default 2024%Z t = default 2024%Z t'
  | _, _ => False
  end.
Proof.
  intros A1 A2 H.
  destruct call1 as [s1 a b|s1|s1 t], call2 as [s2 a' b'|s2|s2 t'];
    cbn [endpoint] in H; try (cbn [append] in H; discriminate H).
  - apply (string_app_inv_head "/stats?state=") in H.
    apply (f_equal (split_on "&")) in H.
    change (e1 ++ "&min_year=" ++ Number_toString (default 2017%Z a)
            ++ "&max_year=" ++ Number_toString (default 2023%Z b))
      with (e1 ++ String "&" (("min_year=" ++ Number_toString (default 2017%Z a))
            ++ String "&" ("max_year=" ++ Number_toString (default 2023%Z b)))) in H.
    change (e2 ++ "&min_year=" ++ Number_toString (default 2017%Z a')
            ++ "&max_year=" ++ Number_toString (default 2023%Z b'))
      with (e2 ++ String "&" (("min_year=" ++ Number_toString (default 2017%Z a'))
            ++ String "&" ("max_year=" ++ Number_toString (default 2023%Z b')))) in H.
    rewrite !split_on_app, !split_on_absent in H
      by (assumption || (apply year_key_absent; reflexivity)).
    injection H as <- Hy1 Hy2.
    auto using Number_toString_inj.
  - apply (string_app_inv_head "/chart/trend?state=") in H. auto.
  - apply (string_app_inv_head "/predict?state=") in H.
    apply (f_equal (split_on "&")) in H.
    change (e1 ++ "&target_year=" ++ Number_toString (default 2024%Z t))
      with (e1 ++ String "&" ("target_year=" ++ Number_toString (default 2024%Z t))) in H.
    change (e2 ++ "&target_year=" ++ Number_toString (default 2024%Z t'))
      with (e2 ++ String "&" ("target_year=" ++ Number_toString (default 2024%Z t'))) in H.
    rewrite !split_on_app, !split_on_absent in H
      by (assumption || (apply year_key_absent; reflexivity)).
    injection H as <- Hy.
    auto using Number_toString_inj.
Qed.

(** X5. The URL of a request determines the invocation: two invocations
    that request the same URL are the same operation with the same
    jurisdiction and the same years, once defaults are filled in. *)

Theorem request_url_determines_call
    (c : Constants) (net1 net2 : Network) (call1 call2 : Call) (u : string) :
  js_wf (jurisdiction call1) = true ->
  js_wf (jurisdiction call2) = true ->
  In ("GET", u) (requests (trace (invoke c net1 call1))) ->
  In ("GET", u) (requests (trace (invoke c net2 call2))) ->
  normalize call1 = normalize call2.
Proof.
  intros W1 W2 H1 H2.
  apply (request_url c net1 call1) in H1. destruct H1 as [_ H1].
  apply (request_url c net2 call2) in H2. destruct H2 as [_ H2].
  apply url_of_Normal in H1. destruct H1 as [e1 [E1 U1]].
  apply url_of_Normal in H2. destruct H2 as [e2 [E2 U2]].
  rewrite U1 in U2. apply string_app_inv_head in U2.
  destruct (encoded_no_separator e1 (encodeURIComponent_encoded _ _ W1 E1)) as [A1 _].
  destruct (encoded_no_separator e2 (encodeURIComponent_encoded _ _ W2 E2)) as [A2 _].
  destruct (endpoint_inj call1 call2 e1 e2 A1 A2 U2) as [<- Hy].
  pose proof (encodeURIComponent_injective _ _ _ W1 W2 E1 E2) as J.
  destruct call1, call2; try contradiction; cbn [jurisdiction] in J;
    cbn [normalize]; rewrite J.
  - destruct Hy as [-> ->]. reflexivity.
  - reflexivity.
  - rewrite Hy. reflexivity.
Qed.

Lemma request_url_determines_call_witness :
  normalize (CallPrediction None None)
  = normalize (CallPrediction (Some (js "all")) (Some 2024%Z)).
Proof.
  apply (request_url_determines_call constants unreachable (stub 200 total_123)
           (CallPrediction None None) (CallPrediction (Some (js "all")) (Some 2024%Z))
           "http://127.0.0.1:5000/api/predict?state=all&target_year=2024").
  - reflexivity.
  - reflexivity.
  - left. reflexivity.
  - left. reflexivity.
Defined.


(** ** Operations in sequence *)

Lemma invoke_never_throws (c : Constants) (net : Network) (call : Call) :
  exists v, result (invoke c net call) = Normal v.
Proof.
  rewrite invoke_outcome. unfold outcome.
  destruct (url_of c call) as [u|e]; [|cbn; eauto].
  destruct (net u) as [|r]; [cbn; eauto|].
  destruct (ok r); [|cbn; eauto].
  destruct (body r) as [text|]; [|cbn; eauto].
  destruct (JSON.parse text); cbn; eauto.
Qed.

(** X6. Operations awaited one after another do not disturb each other:
    the sequence never aborts, whatever fails; it yields one value per
    invocation, the value that invocation yields on its own, and its
    events are those of the invocations, in order. *)

Theorem sequence_of_calls_never_aborts (c : Constants) (net : Network) (calls : list Call) :
  exists vs : list Json,
    result (invoke_all c net calls) = Normal vs /\
    map Normal vs = map (fun call => result (invoke c net call)) calls /\
    trace (invoke_all c net calls)
    = concat (map (fun call => trace (invoke c net call)) calls).
Proof.
  induction calls as [|call rest [vs [Hr [Hv Ht]]]].
  - exists []. repeat split.
  - destruct (invoke_never_throws c net call) as [v Hc].
    exists (v :: vs). cbn [invoke_all map concat].
    unfold result, trace in *.
    destruct (invoke c net call) as [r t]. cbn [fst snd] in Hc. subst r.
    destruct (invoke_all c net rest) as [r' t']. cbn [fst snd] in Hr, Ht. subst r' t'.
    cbn. rewrite Hv, app_nil_r. repeat split.
Qed.

(** ** Bodies that are not a value *)

Lemma skip_ws_all (text : JsString) :
  forallb JSON.is_ws text = true -> JSON.skip_ws text = [].
Proof.
  induction text as [|ch text IH]; [reflexivity|].
  cbn [forallb JSON.skip_ws]. intros H. apply andb_true_iff in H.
  destruct H as [-> H]. exact (IH H).
Qed.

Lemma parse_blank (text : JsString) :
  forallb JSON.is_ws text = true -> JSON.parse text = None.
Proof.
  intros H. unfold JSON.parse. cbn [JSON.parse_value].
  rewrite (skip_ws_all text H). reflexivity.
Qed.

(** X7. A success response with an empty body, or one of whitespace only
    (a 204 No Content, say), yields [null]: the body is read, the
    SyntaxError is logged, nothing else happens. *)

Theorem blank_body_yields_null
    (c : Constants) (net : Network) (call : Call) (u : string) (r : Response)
    (text : JsString) :
  In ("GET", u) (requests (trace (invoke c net call))) ->
  net u = Responds r ->
  ok r = true ->
  body r = Text text ->
  forallb JSON.is_ws text = true ->
  invoke c net call
  = (Normal JNull, [Request "GET" u; ReadBody; ConsoleError SyntaxError]).
Proof.
  intros Hin Hnet Hok Hb Hws.
  apply (request_url c net call) in Hin. destruct Hin as [_ Hu].
  rewrite invoke_outcome. unfold outcome.
  rewrite Hu, Hnet, Hok, Hb, (parse_blank text Hws). reflexivity.
Qed.

Lemma blank_body_yields_null_witness :
  invoke constants (stub 204 []) (CallTrend None)
  = (Normal JNull,
     [Request "GET" "http://127.0.0.1:5000/api/chart/trend?state=all";
      ReadBody; ConsoleError SyntaxError]).
Proof.
  apply (blank_body_yields_null constants (stub 204 []) (CallTrend None)
           "http://127.0.0.1:5000/api/chart/trend?state=all"
           {| status := 204; body := Text [] |} []).
  - left. reflexivity.
  - reflexivity.
  - reflexivity.
  - reflexivity.
  - reflexivity.
Defined.

(** X8. When the body stream of a success response breaks before the
    body is complete, the operation yields [null] and logs the TypeError
    of the failed read. *)

Theorem broken_body_stream_yields_null
    (c : Constants) (net : Network) (call : Call) (u : string) (r : Response) :
  In ("GET", u) (requests (trace (invoke c net call))) ->
  net u = Responds r ->
  ok r = true ->
  body r = Aborted ->
  invoke c net call
  = (Normal JNull, [Request "GET" u; ReadBody; ConsoleError TypeError]).
Proof.
  intros Hin Hnet Hok Hb.
  apply (request_url c net call) in Hin. destruct Hin as [_ Hu].
  rewrite invoke_outcome. unfold outcome. rewrite Hu, Hnet, Hok, Hb. reflexivity.
Qed.

Lemma broken_body_stream_yields_null_witness :
  invoke constants (fun _ => Responds {| status := 200; body := Aborted |})
    (CallStats None None None)
  = (Normal JNull,
     [Request "GET" "http://127.0.0.1:5000/api/stats?state=all&min_year=2017&max_year=2023";
      ReadBody; ConsoleError TypeError]).
Proof.
  apply (broken_body_stream_yields_null constants
           (fun _ => Responds {| status := 200; body := Aborted |})
           (CallStats None None None)
           "http://127.0.0.1:5000/api/stats?state=all&min_year=2017&max_year=2023"
           {| status := 200; body := Aborted |}).
  - left. reflexivity.
  - reflexivity.
  - reflexivity.
  - reflexivity.
Defined.

(** X9. With the constants of the script every request goes to the
    loopback address http://127.0.0.1:5000/api/ and none to the address
    held by API_BASE_URL. *)

Theorem requests_go_to_loopback_only
    (net : Network) (call : Call) (m u : string) :
  In (m, u) (requests (trace (invoke constants net call))) ->
  prefix "http://127.0.0.1:5000/api/" u = true /\
  prefix (API_BASE_URL constants) u = false.
Proof.
  intros Hin. apply (request_url constants net call) in Hin. destruct Hin as [_ Hu].
  apply url_of_Normal in Hu. destruct Hu as [enc [_ ->]].
  destruct call; split; reflexivity.
Qed.

Lemma requests_go_to_loopback_only_witness :
  prefix "http://127.0.0.1:5000/api/"
    "http://127.0.0.1:5000/api/chart/trend?state=all" = true /\
  prefix (API_BASE_URL constants)
    "http://127.0.0.1:5000/api/chart/trend?state=all" = false.
Proof.
  apply (requests_go_to_loopback_only unreachable (CallTrend None) "GET"
           "http://127.0.0.1:5000/api/chart/trend?state=all").
  left. reflexivity.
Defined.

(** X10. A result other than [null] is always backend data: then exactly
    one request was made, it was answered with a status in 200..299 and a
    body that is a JSON text, the result is the value of that text, and
    nothing was logged. *)
Theorem non_null_result_is_backend_data
    (c : Constants) (net : Network) (call : Call) (v : Json) :
  result (invoke c net call) = Normal v ->
  v <> JNull ->
  exists u r text,
    invoke c net call = (Normal v, [Request "GET" u; ReadBody]) /\
    net u = Responds r /\
    (200 <= status r <= 299)%Z /\
    body r = Text text /\
    JSON.parse text = Some v.
Proof.
  rewrite invoke_outcome. unfold outcome. intros H Hv.
  destruct (url_of c call) as [u|e]; [|cbn in H; congruence].
  destruct (net u) as [|r] eqn:En; [cbn in H; congruence|].
  destruct (ok r) eqn:Eok; [|cbn in H; congruence].
  destruct (body r) as [text|] eqn:Eb; [|cbn in H; congruence].
  destruct (JSON.parse text) as [v'|] eqn:Ep; [|cbn in H; congruence].
  cbn in H. injection H as ->. exists u, r, text.
  unfold ok in Eok. apply andb_true_iff in Eok. destruct Eok as [E1 E2].
  apply Z.leb_le in E1, E2. auto.
Qed.

Lemma non_null_result_is_backend_data_witness :
  exists u r text,
    invoke constants (stub 200 total_123) (CallTrend None)
    = (Normal (JObj [(js "total", JNum 123 0)]), [Request "GET" u; ReadBody]) /\
    stub 200 total_123 u = Responds r /\
    (200 <= status r <= 299)%Z /\
    body r = Text text /\
    JSON.parse text = Some (JObj [(js "total", JNum 123 0)]).
Proof.
  apply (non_null_result_is_backend_data constants (stub 200 total_123) (CallTrend None)
           (JObj [(js "total", JNum 123 0)])).
  - reflexivity.
  - discriminate.
Defined.
